(** * Session tokens, registration and password reset

    A shallow embedding of the token service ([auth/TokenService.js]), the
    user service ([user/UserService.js]), the mail service
    ([email/EmailService.js]) and the random-string generator
    ([shared/generator.js]) of the account backend, with the properties of
    the token lifecycle, the registration transaction and the password-reset
    flow proved about the embedding.

    The persistent store is two tables of rows kept in insertion order (the
    order in which a [findOne] without [ORDER BY] meets them).  The services
    are [async] functions that read and write the store and may throw; they
    are embedded in a state-and-exception monad over the store.  What the
    services read from their environment (the clock, the random bytes, the
    bcrypt salt, the outcome of the SMTP conversation, a fault of the store
    in the background sweep) is an explicit argument of the embedded
    function. *)

From Stdlib Require Import ZArith List String Ascii Bool Lia Arith.
From Stdlib.Strings Require Import Byte.
Import ListNotations.

Local Open Scope string_scope.
Local Open Scope list_scope.
Local Open Scope Z_scope.

(** ** Exceptions *)

(** The exceptions the services throw or let through.  [TypeError] is what
    JavaScript raises when a property of [null] is written
    ([tokenInDb.lastUsedAt = ...], [user.password = ...]).  Of the classes
    [InvalidTokenEexception], [NotFoundException] and [EmailException] the
    services use only the constructor; [SmtpError] is the rejection of
    [transporter.sendMail]; [JsError] is a plain [Error] with its message, as
    bcrypt throws it; the [Sequelize] ones are errors of the store. *)
Inductive exn : Type :=
| TypeError
| InvalidTokenEexception
| NotFoundException (message : string)
| EmailException
| SmtpError
| JsError (message : string)
| SequelizeUniqueConstraintError
| SequelizeForeignKeyConstraintError
| SequelizeDatabaseError.

Inductive Result (A : Type) : Type :=
| Ok (a : A)
| Throw (e : exn).
Arguments Ok {A} a.
Arguments Throw {A} e.

(** ** Rows *)

(** [user/User.js]: the columns of a user row; [id] is the primary key that
    Sequelize adds.  The nullable string columns are [option string]. *)
Module User.
Record t : Type := mk {
  id : Z;
  username : string;
  email : string;
  password : string;
  activationToken : option string;
  passwordResetToken : option string;
  image : option string;
  inactive : bool
}.

Definition set_password (v : string) (u : t) : t :=
  mk (id u) (username u) (email u) v (activationToken u)
     (passwordResetToken u) (image u) (inactive u).
Definition set_activationToken (v : option string) (u : t) : t :=
  mk (id u) (username u) (email u) (password u) v
     (passwordResetToken u) (image u) (inactive u).
Definition set_passwordResetToken (v : option string) (u : t) : t :=
  mk (id u) (username u) (email u) (password u) (activationToken u)
     v (image u) (inactive u).
Definition set_inactive (v : bool) (u : t) : t :=
  mk (id u) (username u) (email u) (password u) (activationToken u)
     (passwordResetToken u) (image u) v.
End User.

(** Modelled from the spec: the declaration of the token model
    ([auth/Token.js]) is not among the sources.  The persisted layout of the
    specification gives a token row the columns [token] (opaque string),
    [userId] (reference to the owning user) and [lastUsedAt] (timestamp, here
    milliseconds since the epoch); [id] is the primary key that Sequelize
    adds.  The tests insert rows without [token] and without [userId], so
    both columns are nullable.  That no two rows carry the same token string
    is not enforced on insertion (the specification leaves a collision
    unhandled); where a property needs it, it is a hypothesis. *)
Module Token.
Record t : Type := mk {
  id : Z;
  token : option string;
  userId : option Z;
  lastUsedAt : Z
}.

Definition set_lastUsedAt (v : Z) (r : t) : t :=
  mk (id r) (token r) (userId r) v.
End Token.

(** [where: { column: value }] on a nullable string column: SQL equality with
    a string never holds for [NULL]. *)
Definition col_eqb (c : option string) (v : string) : bool :=
  match c with
  | Some s => String.eqb s v
  | None => false
  end.

(** [where: { userId }] on the nullable foreign key. *)
Definition ref_eqb (c : option Z) (v : Z) : bool :=
  match c with
  | Some i => Z.eqb i v
  | None => false
  end.

(** ** The store and the effects on it *)

(** A mail handed to [transporter.sendMail]. *)
Record Mail : Type := mkMail {
  mail_from : string;
  mail_to : string;
  mail_subject : string;
  mail_html : string
}.

(** The journal lists, oldest first, every write to the store and every
    conversation with the mail server.  It is not part of the program's
    data: it records the order of the effects. *)
Inductive Effect : Type :=
| EUserCreate (u : User.t)
| EUserSave (u : User.t)
| EUserDestroy (id : Z)
| ETokenCreate (r : Token.t)
| ETokenSave (r : Token.t)
| ETokenDestroy (deleted : list Token.t)
| EMail (m : Mail) (delivered : bool)
| ECommit
| ERollback.

Record World : Type := mkWorld {
  users : list User.t;
  tokens : list Token.t;
  nextUserId : Z;
  nextTokenId : Z;
  journal : list Effect
}.

Definition emptyWorld : World := mkWorld [] [] 1 1 [].

(** ** The monad of the services *)

(** An [async] function is a computation on the store that returns a value
    or throws; a throw keeps the writes made before it. *)
Definition M (A : Type) : Type := World -> Result A * World.

Definition ret {A : Type} (a : A) : M A := fun w => (Ok a, w).

Definition throw {A : Type} (e : exn) : M A := fun w => (Throw e, w).

Definition bind {A B : Type} (m : M A) (f : A -> M B) : M B :=
  fun w =>
    match m w with
    | (Ok a, w') => f a w'
    | (Throw e, w') => (Throw e, w')
    end.

(** [try { m } catch (error) { h error }] *)
Definition try_catch {A : Type} (m : M A) (h : exn -> M A) : M A :=
  fun w =>
    match m w with
    | (Ok a, w') => (Ok a, w')
    | (Throw e, w') => h e w'
    end.

Declare Scope service_scope.
Delimit Scope service_scope with service.
Notation "x <- m ;; k" := (bind m (fun x => k))
  (at level 100, m at next level, right associativity) : service_scope.
Notation "m ;; k" := (bind m (fun _ => k))
  (at level 100, right associativity) : service_scope.
Local Open Scope service_scope.

Definition log (e : Effect) : M unit :=
  fun w => (Ok tt, mkWorld (users w) (tokens w) (nextUserId w) (nextTokenId w)
                           (journal w ++ [e])).

Definition set_users (us : list User.t) : M unit :=
  fun w => (Ok tt, mkWorld us (tokens w) (nextUserId w) (nextTokenId w) (journal w)).

Definition set_tokens (ts : list Token.t) : M unit :=
  fun w => (Ok tt, mkWorld (users w) ts (nextUserId w) (nextTokenId w) (journal w)).

Definition get_users : M (list User.t) := fun w => (Ok (users w), w).

Definition get_tokens : M (list Token.t) := fun w => (Ok (tokens w), w).

(** ** The model layer (Sequelize) *)

(** [User.findOne({ where })]: the first row that satisfies the condition, or
    [null]. *)
Definition User_findOne (cond : User.t -> bool) : M (option User.t) :=
  us <- get_users ;; ret (find cond us).

(** What [User.create] is given by [UserService.save]; the other columns take
    their defaults ([inactive] is [true], the rest [NULL]). *)
Record NewUser : Type := mkNewUser {
  new_username : string;
  new_email : string;
  new_password : string;
  new_activationToken : string
}.

(** [User.create(user)]: the [email] column is [unique], so an address already
    in the table is refused; otherwise the row gets the next primary key and
    goes to the end of the table. *)
Definition User_create (nu : NewUser) : M User.t :=
  fun w =>
    if existsb (fun r => String.eqb (User.email r) (new_email nu)) (users w)
    then (Throw SequelizeUniqueConstraintError, w)
    else
      let u := User.mk (nextUserId w) (new_username nu) (new_email nu)
                       (new_password nu) (Some (new_activationToken nu))
                       None None true in
      (Ok u, mkWorld (users w ++ [u]) (tokens w) (nextUserId w + 1)
                     (nextTokenId w) (journal w ++ [EUserCreate u])).

(** [user.save()]: [UPDATE ... WHERE id = user.id]. *)
Definition User_save (u : User.t) : M unit :=
  us <- get_users ;;
  set_users (map (fun r => if User.id r =? User.id u then u else r) us) ;;
  log (EUserSave u).

(** [User.destroy({ where: { id } })]; the association
    [User.hasMany(Token, { onDelete: 'cascade', foreignKey: 'userId' })]
    removes the token rows of the user with it. *)
Definition User_destroy (id : Z) : M unit :=
  us <- get_users ;;
  ts <- get_tokens ;;
  set_users (filter (fun r => negb (User.id r =? id)) us) ;;
  set_tokens (filter (fun r => negb (ref_eqb (Token.userId r) id)) ts) ;;
  log (EUserDestroy id).

(** [Token.create({ token, userId, lastUsedAt })].  The association
    [User.hasMany(Token, { foreignKey: 'userId' })] makes [userId] a foreign
    key into the user table: the store refuses a row whose owner is not
    [NULL] and is the id of no user row. *)
Definition Token_create (tok : option string) (uid : option Z) (at_ : Z) : M Token.t :=
  fun w =>
    if match uid with
       | Some i => existsb (fun u => User.id u =? i) (users w)
       | None => true
       end
    then
      let r := Token.mk (nextTokenId w) tok uid at_ in
      (Ok r, mkWorld (users w) (tokens w ++ [r]) (nextUserId w)
                     (nextTokenId w + 1) (journal w ++ [ETokenCreate r]))
    else (Throw SequelizeForeignKeyConstraintError, w).

Definition Token_findOne (cond : Token.t -> bool) : M (option Token.t) :=
  ts <- get_tokens ;; ret (find cond ts).

(** [tokenInDb.save()] *)
Definition Token_save (r : Token.t) : M unit :=
  ts <- get_tokens ;;
  set_tokens (map (fun x => if Token.id x =? Token.id r then r else x) ts) ;;
  log (ETokenSave r).

(** [Token.destroy({ where })]: deletes the rows that satisfy the condition.
    [fault] is the error with which the store rejects the statement, if it
    does; a rejected statement deletes nothing. *)
Definition Token_destroy (fault : option exn) (cond : Token.t -> bool) : M unit :=
  match fault with
  | Some e => throw e
  | None =>
      ts <- get_tokens ;;
      set_tokens (filter (fun r => negb (cond r)) ts) ;;
      log (ETokenDestroy (filter cond ts))
  end.

(** A transaction handle: the store as it was when the transaction began. *)
Record Transaction : Type := mkTransaction {
  tx_users : list User.t;
  tx_tokens : list Token.t;
  tx_nextUserId : Z;
  tx_nextTokenId : Z
}.

(** [sequelize.transaction()] *)
Definition transaction : M Transaction :=
  fun w => (Ok (mkTransaction (users w) (tokens w) (nextUserId w) (nextTokenId w)), w).

(** [transaction.commit()]: the writes made since the beginning stay. *)
Definition commit (tx : Transaction) : M unit := log ECommit.

(** [transaction.rollback()]: the store goes back to what it was when the
    transaction began.  The journal is a history and is not rolled back. *)
Definition rollback (tx : Transaction) : M unit :=
  fun w => (Ok tt, mkWorld (tx_users tx) (tx_tokens tx) (tx_nextUserId tx)
                           (tx_nextTokenId tx) (journal w ++ [ERollback])).

(** ** [shared/generator.js] *)

(** [crypto.randomBytes(length)]: [length] bytes of the entropy source. *)
Definition randomBytes (rnd : nat -> byte) (length : nat) : list byte :=
  map rnd (seq 0 length).

Definition hexDigit (n : nat) : ascii :=
  nth n (list_ascii_of_string "0123456789abcdef") "0"%char.

(** [buffer.toString('hex')]: two lower-case digits per byte. *)
Fixpoint toHex (bs : list byte) : string :=
  match bs with
  | [] => ""
  | b :: bs' =>
      String (hexDigit (Nat.div (Byte.to_nat b) 16))
        (String (hexDigit (Nat.modulo (Byte.to_nat b) 16)) (toHex bs'))
  end.

(** [crypto.randomBytes(length).toString('hex').substr(0, length)] *)
Definition randomString (rnd : nat -> byte) (length : nat) : string :=
  substring 0 length (toHex (randomBytes rnd length)).

(** ** [email/EmailService.js] *)

Module EmailService.

(** [transporter.sendMail(mail)]: [delivered] is the outcome of the SMTP
    conversation; a refused mail rejects the promise. *)
Definition sendMail (delivered : bool) (m : Mail) : M unit :=
  log (EMail m delivered) ;;
  if delivered then ret tt else throw SmtpError.

Definition sendActivationToken (delivered : bool) (email token : string) : M unit :=
  sendMail delivered (mkMail "My App" email "Account Activation" ("Token is " ++ token)).

Definition sendPasswordReset (delivered : bool) (email token : string) : M unit :=
  sendMail delivered (mkMail "My App" email "Pasword Reset" ("Rest Token is " ++ token)).

End EmailService.

(** ** [auth/TokenService.js] *)

Module TokenService.

(** What [verify] returns: [{ id: userId }]. *)
Record AuthenticatedUser : Type := mkAuthenticatedUser { auth_id : option Z }.

(** [now] is the reading of [new Date()]. *)
Definition createToken (rnd : nat -> byte) (now : Z) (user : User.t) : M string :=
  let token := randomString rnd 32 in
  _ <- Token_create (Some token) (Some (User.id user)) now ;;
  ret token.

(** [now0] is the reading of [Date.now()] in the first line, [now1] the
    reading of [new Date()] that refreshes the row. *)
Definition verify (now0 now1 : Z) (token : string) : M AuthenticatedUser :=
  let oneWeekAgo := now0 - 7 * 24 * 60 * 60 * 1000 in
  tokenInDb <- Token_findOne (fun r => col_eqb (Token.token r) token
                                       && (oneWeekAgo <? Token.lastUsedAt r)) ;;
  match tokenInDb with
  | None => throw TypeError
  | Some tokenInDb =>
      let tokenInDb := Token.set_lastUsedAt now1 tokenInDb in
      Token_save tokenInDb ;;
      let userId := Token.userId tokenInDb in
      ret (mkAuthenticatedUser userId)
  end.

(** In [deleteToken] and in [clearTokens] the store executes the statement. *)
Definition deleteToken (token : string) : M unit :=
  Token_destroy None (fun r => col_eqb (Token.token r) token).

(** The callback handed to [setInterval]: an [async] function without a
    [try]; [now] is its reading of [Date.now()], [fault] the error of the
    store for its [destroy], if any. *)
Definition cleanup (now : Z) (fault : option exn) : M unit :=
  let oneWeekAgo := now - 7 * 24 * 60 * 60 * 1000 in
  Token_destroy fault (fun r => Token.lastUsedAt r <? oneWeekAgo).

(** A timer made by [setInterval(callback, delay)]. *)
Record Interval : Type := mkInterval {
  callback : Z -> option exn -> M unit;
  delay : Z
}.

Definition scheduleCleanup : Interval :=
  mkInterval cleanup (60 * 60 * 1000).

Definition clearTokens (userId : Z) : M unit :=
  Token_destroy None (fun r => ref_eqb (Token.userId r) userId).

End TokenService.

(** ** The timers of the process *)

(** The process: its store and the rejections of promises that nothing
    handles.  [setInterval] drops the promise that an [async] callback
    returns, so a rejection of that promise has no handler. *)
Record Process : Type := mkProcess {
  world : World;
  unhandledRejections : list exn
}.

(** One firing of a timer. *)
Definition fire (iv : TokenService.Interval) (p : Process) (tick : Z * option exn) : Process :=
  match TokenService.callback iv (fst tick) (snd tick) (world p) with
  | (Ok _, w') => mkProcess w' (unhandledRejections p)
  | (Throw e, w') => mkProcess w' (unhandledRejections p ++ [e])
  end.

(** The firings of a timer, one per element of [ticks], as long as the
    process runs. *)
Definition runInterval (iv : TokenService.Interval) (ticks : list (Z * option exn))
    (p : Process) : Process :=
  fold_left (fire iv) ticks p.

(** ** [user/UserService.js] *)

Module UserService.

(** The fields [save] takes from the request body. *)
Record Body : Type := mkBody {
  body_username : string;
  body_email : string;
  body_password : string
}.

Section WithBcrypt.

(** [bcrypt.hash(password, 10)] with the salt it draws. *)
Variable bcrypt_hash : string -> string -> string.

Definition save (salt : string) (rnd : nat -> byte) (delivered : bool)
    (body : Body) : M unit :=
  let hash := bcrypt_hash salt (body_password body) in
  let user := mkNewUser (body_username body) (body_email body) hash
                        (randomString rnd 16) in
  transaction_ <- transaction ;;
  try_catch
    (_ <- User_create user ;;
     EmailService.sendActivationToken delivered (body_email body)
                                      (new_activationToken user) ;;
     commit transaction_)
    (fun error => rollback transaction_ ;; throw EmailException).

Definition findByEmail (email : string) : M (option User.t) :=
  User_findOne (fun r => String.eqb (User.email r) email).

Definition activate (token : string) : M unit :=
  user <- User_findOne (fun r => col_eqb (User.activationToken r) token) ;;
  match user with
  | None => throw InvalidTokenEexception
  | Some user =>
      let user := User.set_inactive false user in
      let user := User.set_activationToken None user in
      User_save user
  end.

Definition deleteUser (id : Z) : M unit := User_destroy id.

Definition passwordResetRequest (rnd : nat -> byte) (delivered : bool)
    (email : string) : M unit :=
  user <- findByEmail email ;;
  match user with
  | None => throw (NotFoundException "email_not_in_use")
  | Some user =>
      let secret := randomString rnd 16 in
      let user := User.set_passwordResetToken (Some secret) user in
      User_save user ;;
      try_catch
        (EmailService.sendPasswordReset delivered email secret)
        (fun error => throw EmailException)
  end.

Definition findByPasswordResetToken (passwordResetToken : string)
    : M (option User.t) :=
  User_findOne (fun r => col_eqb (User.passwordResetToken r) passwordResetToken).

Definition updatePassword (salt : string) (passwordResetToken password : string)
    : M unit :=
  user <- findByPasswordResetToken passwordResetToken ;;
  let hash := bcrypt_hash salt password in
  match user with
  | None => throw TypeError
  | Some user =>
      let user := User.set_password hash user in
      let user := User.set_passwordResetToken None user in
      let user := User.set_inactive false user in
      let user := User.set_activationToken None user in
      User_save user ;;
      TokenService.clearTokens (User.id user)
  end.

End WithBcrypt.

End UserService.

(** ** Vocabulary of the properties *)

(** The time to live of a session token: seven days, in milliseconds. *)
Definition TTL : Z := 604800000.

(** One hour, in milliseconds. *)
Definition ONE_HOUR : Z := 3600000.

(** The effects between two stores of one run. *)
Definition effects_since (w w' : World) : list Effect :=
  skipn (List.length (journal w)) (journal w').

(** The outcome of the first mail dispatch among some effects, if a dispatch
    was attempted. *)
Fixpoint dispatch_outcome (es : list Effect) : option bool :=
  match es with
  | [] => None
  | EMail _ delivered :: _ => Some delivered
  | _ :: es' => dispatch_outcome es'
  end.

(** The invariant of a user row: an active user has no activation secret. *)
Definition user_ok (u : User.t) : Prop :=
  User.inactive u = false -> User.activationToken u = None.

(** A user row holds the activation secret [s]. *)
Definition holds_activation (s : string) (u : User.t) : Prop :=
  User.activationToken u = Some s.

(** A user row holds the reset secret [s]. *)
Definition holds_reset (s : string) (u : User.t) : Prop :=
  User.passwordResetToken u = Some s.

(** A token row carries the token string [s]. *)
Definition carries (s : string) (r : Token.t) : Prop :=
  Token.token r = Some s.

(** ** The stores the operations leave *)

(** The store after [verify] refreshed the row [r]. *)
Definition refreshed (now1 : Z) (r : Token.t) (w : World) : World :=
  mkWorld (users w)
          (map (fun x => if Token.id x =? Token.id r
                         then Token.set_lastUsedAt now1 r else x) (tokens w))
          (nextUserId w) (nextTokenId w)
          (journal w ++ [ETokenSave (Token.set_lastUsedAt now1 r)]).

(** The store after [user.save()] of the row [u]. *)
Definition saved_user (u : User.t) (w : World) : World :=
  mkWorld (map (fun r => if User.id r =? User.id u then u else r) (users w))
          (tokens w) (nextUserId w) (nextTokenId w)
          (journal w ++ [EUserSave u]).

(** The row [activate] saves for the user [u]. *)
Definition activated (u : User.t) : User.t :=
  User.mk (User.id u) (User.username u) (User.email u) (User.password u)
          None (User.passwordResetToken u) (User.image u) false.

(** The row [passwordResetRequest] saves for the user [u]. *)
Definition with_reset_secret (secret : string) (u : User.t) : User.t :=
  User.mk (User.id u) (User.username u) (User.email u) (User.password u)
          (User.activationToken u) (Some secret) (User.image u) (User.inactive u).

(** The mail of [sendPasswordReset]. *)
Definition resetMail (email secret : string) : Mail :=
  mkMail "My App" email "Pasword Reset" ("Rest Token is " ++ secret).

(** The mail of [sendActivationToken] for a registration. *)
Definition activationMail (rnd : nat -> byte) (body : UserService.Body) : Mail :=
  mkMail "My App" (UserService.body_email body) "Account Activation"
         ("Token is " ++ randomString rnd 16).

(** The address is in the user table already. *)
Definition email_in_use (email : string) (w : World) : bool :=
  existsb (fun r => String.eqb (User.email r) email) (users w).

(** The row that [save] hands to [User.create], with the key the store gives
    it. *)
Definition registered (bcrypt_hash : string -> string -> string)
    (salt : string) (rnd : nat -> byte) (body : UserService.Body) (w : World)
    : User.t :=
  User.mk (nextUserId w) (UserService.body_username body) (UserService.body_email body)
          (bcrypt_hash salt (UserService.body_password body))
          (Some (randomString rnd 16)) None None true.

(** The row [updatePassword] saves for the user [u]. *)
Definition with_new_password (bcrypt_hash : string -> string -> string)
    (salt password : string) (u : User.t) : User.t :=
  User.mk (User.id u) (User.username u) (User.email u) (bcrypt_hash salt password)
          None None (User.image u) false.

(** The store after [updatePassword] for the user [u]. *)
Definition password_updated (bcrypt_hash : string -> string -> string)
    (salt password : string) (u : User.t) (w : World) : World :=
  mkWorld (users (saved_user (with_new_password bcrypt_hash salt password u) w))
          (filter (fun r => negb (ref_eqb (Token.userId r) (User.id u))) (tokens w))
          (nextUserId w) (nextTokenId w)
          (journal w ++ [EUserSave (with_new_password bcrypt_hash salt password u);
                         ETokenDestroy
                           (filter (fun r => ref_eqb (Token.userId r) (User.id u))
                                   (tokens w))]).

(** Every row of the user table satisfies the invariant. *)
Definition users_ok (w : World) : Prop :=
  forall u, In u (users w) -> user_ok u.

(** ** Sample stores *)

(** A stand-in for bcrypt in the examples. *)
Definition sample_hash (salt plaintext : string) : string :=
  ("$2b$10$" ++ salt ++ plaintext)%string.

(** A store with one active user and one session of that user, last used at
    time 0. *)
Definition oneSession : World :=
  mkWorld [User.mk 1 "user1" "user1@mail.com" "hash" None None None false]
          [Token.mk 1 (Some "t0") (Some 1) 0] 2 2 [].

(** A store with one registered, inactive user whose activation secret is
    ["a1b2c3d4e5f60718"]. *)
Definition oneInactiveUser : World :=
  mkWorld [User.mk 1 "user1" "user1@mail.com" "hash" (Some "a1b2c3d4e5f60718")
                   None None true]
          [] 2 1 [].

(** A store with one active user. *)
Definition oneActiveUser : World :=
  mkWorld [User.mk 1 "user1" "user1@mail.com" "hash" None None None false]
          [] 2 1 [].

(** A store with one user who has asked for a reset and has two sessions,
    and a second user with one session. *)
Definition resetPending : World :=
  mkWorld [User.mk 1 "user1" "user1@mail.com" "hash" (Some "a1b2c3d4e5f60718")
                   (Some "0011223344556677") None true;
           User.mk 2 "user2" "user2@mail.com" "hash2" None None None false]
          [Token.mk 1 (Some "t1") (Some 1) 0;
           Token.mk 2 (Some "t2") (Some 2) 0;
           Token.mk 3 (Some "t3") (Some 1) 0]
          3 4 [].

(** A store with three active users and no session. *)
Definition threeActiveUsers : World :=
  mkWorld [User.mk 1 "user1" "user1@mail.com" "hash1" None None None false;
           User.mk 2 "user2" "user2@mail.com" "hash2" None None None false;
           User.mk 3 "user3" "user3@mail.com" "hash3" None None None false]
          [] 4 1 [].

(** ** [user/UserService.js]: listing, lookup and update *)

(** [attributes: ['id', 'username', 'email', 'image']]: what a query with this
    projection returns of a row. *)
Record UserView : Type := mkUserView {
  view_id : Z;
  view_username : string;
  view_email : string;
  view_image : option string
}.

Definition attributes (u : User.t) : UserView :=
  mkUserView (User.id u) (User.username u) (User.email u) (User.image u).

(** JavaScript's truth value of a nullable string: [null] and the empty
    string are falsy. *)
Definition truthy (o : option string) : bool :=
  match o with
  | Some s => negb (String.eqb s "")
  | None => false
  end.

(** The largest integer of the store: [LIMIT], [OFFSET] and the number of
    rows of a table are 64-bit integers in SQLite. *)
Definition MAX_INT64 : Z := 9223372036854775807.

(** [Number.MAX_SAFE_INTEGER]: up to it the product [page * size] of
    JavaScript numbers is the product of the integers. *)
Definition MAX_SAFE_INTEGER : Z := 9007199254740991.

(** [User.findAndCountAll({ limit, where, offset })]: the number of rows that
    satisfy the condition, and of these rows, in table order, [limit] rows
    after the first [offset].  SQLite rejects the statement (datatype
    mismatch) when [limit] or [offset] is beyond its integers.  Row ids are
    integers of the store too, so no table holds more rows than
    [MAX_INT64]; a longer list is no table, and the query on it is refused
    as well.  [limit] and [offset] are read as natural numbers: the callers
    pass [size >= 1] and [page * size >= 0]. *)
Definition User_findAndCountAll (limit offset : Z) (cond : User.t -> bool)
    : M (Z * list User.t) :=
  us <- get_users ;;
  let matching := filter cond us in
  if (MAX_INT64 <? limit) || (MAX_INT64 <? offset)
     || (MAX_INT64 <? Z.of_nat (List.length matching))
  then throw SequelizeDatabaseError
  else
    ret (Z.of_nat (List.length matching),
         firstn (Z.to_nat limit) (skipn (Z.to_nat offset) matching)).

(** [Math.ceil(count / size)] for a count that is not negative and a size
    that is at least 1. *)
Definition ceil_div (count size : Z) : Z := - ((- count) / size).

Module UserQueries.

(** The response body of the listing. *)
Record Page : Type := mkPage {
  content : list UserView;
  page : Z;
  size : Z;
  totalPages : Z
}.

(** [where: { inactive: false, id: { [Sequelize.Op.not]: id } }]; with a
    [null] id the second condition is [id IS NOT NULL]. *)
Definition listed (id : option Z) (r : User.t) : bool :=
  negb (User.inactive r)
  && match id with
     | Some i => negb (User.id r =? i)
     | None => true
     end.

(** [page] and [size] are JavaScript numbers with integer values; the offset
    [page * size] is the product of the integers as long as it is a safe
    integer. *)
Definition getUsers (page size : Z)
    (authenticatedUser : option TokenService.AuthenticatedUser) : M Page :=
  let id := match authenticatedUser with
            | Some authenticatedUser => TokenService.auth_id authenticatedUser
            | None => Some 0
            end in
  usersWithCount <- User_findAndCountAll size (page * size) (listed id) ;;
  ret (mkPage (map attributes (snd usersWithCount)) page size
              (ceil_div (fst usersWithCount) size)).

Definition getUser (id : Z) : M UserView :=
  user <- User_findOne (fun r => (User.id r =? id) && negb (User.inactive r)) ;;
  match user with
  | None => throw (NotFoundException "user_not_found")
  | Some user => ret (attributes user)
  end.

(** The fields [updateUser] reads of the request body. *)
Record Update : Type := mkUpdate {
  update_username : string;
  update_image : option string
}.

Definition set_username (v : string) (u : User.t) : User.t :=
  User.mk (User.id u) v (User.email u) (User.password u) (User.activationToken u)
          (User.passwordResetToken u) (User.image u) (User.inactive u).

Definition set_image (v : option string) (u : User.t) : User.t :=
  User.mk (User.id u) (User.username u) (User.email u) (User.password u)
          (User.activationToken u) (User.passwordResetToken u) v (User.inactive u).

(** [FileService.deleteProfileImage(fileName)]: [fs.promises.unlink]; [fault]
    is the error of the file system, if it refuses.  The files themselves are
    not part of the store. *)
Definition deleteProfileImage (fault : option exn) (fileName : string) : M unit :=
  match fault with
  | Some e => throw e
  | None => ret tt
  end.

(** [FileService.saveProfileImage(base64File)]: writes the file under a
    random name and returns the name. *)
Definition saveProfileImage (rnd : nat -> byte) (fault : option exn)
    (base64File : string) : M string :=
  let fileName := randomString rnd 32 in
  match fault with
  | Some e => throw e
  | None => ret fileName
  end.

(** [unlinkFault] and [writeFault] are the errors of the file system for the
    removal of the old image and for the write of the new one. *)
Definition updateUser (rnd : nat -> byte) (unlinkFault writeFault : option exn)
    (id : Z) (body : Update) : M UserView :=
  user <- User_findOne (fun r => User.id r =? id) ;;
  match user with
  | None => throw TypeError
  | Some user =>
      let user := set_username (update_username body) user in
      user <- (match update_image body with
               | Some image =>
                   if truthy (update_image body)
                   then
                     (if truthy (User.image user)
                      then deleteProfileImage unlinkFault
                             (match User.image user with Some f => f | None => "" end)
                      else ret tt) ;;
                     fileName <- saveProfileImage rnd writeFault image ;;
                     ret (set_image (Some fileName) user)
                   else ret user
               | None => ret user
               end) ;;
      User_save user ;;
      ret (mkUserView id (User.username user) (User.email user) (User.image user))
  end.

End UserQueries.

(** ** [middleware/pagination.js] *)

(** [pageAsNumber] and [sizeAsNumber] are the results of [parseInt] on the
    query parameters, [None] for [NaN]. *)
Definition pagination (pageAsNumber sizeAsNumber : option Z) : Z * Z :=
  let page := match pageAsNumber with None => 0 | Some n => n end in
  let size := match sizeAsNumber with None => 10 | Some n => n end in
  let page := if page <? 0 then 0 else page in
  let size := if (size <? 1) || (20 <? size) then 10 else size in
  (page, size).

(** ** The routes *)

(** What a handler passes to [next] as an error. *)
Inductive HttpError : Type :=
| AuthException
| ForbiddenException (message : option string).

(** What a handler does with a request: it hands an error to [next] or sends
    a body. *)
Inductive Reply (A : Type) : Type :=
| Next (e : HttpError)
| Send (body : A).
Arguments Next {A} e.
Arguments Send {A} body.

(** [router.get('/api/1.0/users/', pagination, ...)] of [user/UserRouter.js]. *)
Definition getUsersRoute (pageAsNumber sizeAsNumber : option Z)
    (authenticatedUser : option TokenService.AuthenticatedUser)
    : M UserQueries.Page :=
  let pagination_ := pagination pageAsNumber sizeAsNumber in
  UserQueries.getUsers (fst pagination_) (snd pagination_) authenticatedUser.

(** A call of [next] by a middleware: with an error or without. *)
Definition NextCall : Type := option HttpError.

(** [passwordResetTokenValidator] of [user/UserRouter.js]: the calls of
    [next] it makes, in order.  The branch for an unknown secret has no
    [return], so the call without error follows it. *)
Definition passwordResetTokenValidator (passwordResetToken : string)
    : M (list NextCall) :=
  user <- UserService.findByPasswordResetToken passwordResetToken ;;
  let calls := match user with
               | None => [Some (ForbiddenException (Some "unauthorized_password_reset"))]
               | Some _ => []
               end in
  ret (calls ++ [None]).

Module AuthRouter.

(** The body of a login request; a field is [None] when the body has no
    value under that name ([undefined] or [null]).  Bodies with values that
    are not strings are not modelled. *)
Record Credentials : Type := mkCredentials {
  cred_email : option string;
  cred_password : option string
}.

(** The body of the reply to a login. *)
Record Session : Type := mkSession {
  session_id : Z;
  session_username : string;
  session_token : string;
  session_image : option string
}.

Section WithLibraries.

(** [check('email').isEmail()] of express-validator, on a string. *)
Variable isEmail : string -> bool.

(** [bcrypt.compare(password, hash)] on two strings. *)
Variable bcrypt_compare : string -> string -> bool.

(** [router.post('/api/1.0/auth', checkEmail, ...)]; [now] is the clock
    reading of [createToken].  Only the address is validated: a body without
    a password reaches [bcrypt.compare], which rejects when it is not given
    two strings, and the handler has no [try]. *)
Definition postAuth (rnd : nat -> byte) (now : Z) (body : Credentials)
    : M (Reply Session) :=
  match cred_email body with
  | None => ret (Next AuthException)
  | Some email =>
      if negb (isEmail email) then ret (Next AuthException)
      else
        user <- UserService.findByEmail email ;;
        match user with
        | None => ret (Next AuthException)
        | Some user =>
            match_ <- match cred_password body with
                      | Some password =>
                          ret (bcrypt_compare password (User.password user))
                      | None => throw (JsError "data and hash arguments required")
                      end ;;
            if negb match_ then ret (Next AuthException)
            else if User.inactive user then ret (Next (ForbiddenException None))
            else
              token <- TokenService.createToken rnd now user ;;
              ret (Send (mkSession (User.id user) (User.username user) token
                                   (User.image user)))
        end
  end.

End WithLibraries.

(** [authorization.substring(7)]: the header from its eighth character on. *)
Definition bearer (authorization : string) : string :=
  substring 7 (String.length authorization - 7) authorization.

(** [router.post('/api/1.0/logout', ...)]: [authorization] is the header of
    the request, if it has one. *)
Definition postLogout (authorization : option string) : M unit :=
  match authorization with
  | Some header =>
      if truthy authorization
      then TokenService.deleteToken (bearer header)
      else ret tt
  | None => ret tt
  end.

End AuthRouter.

(** ** Requests and reachable stores *)

(** A call of one of the core operations, with what it reads from its
    environment. *)
Inductive Request : Type :=
| ReqSave (salt : string) (rnd : nat -> byte) (delivered : bool) (body : UserService.Body)
| ReqActivate (token : string)
| ReqPasswordResetRequest (rnd : nat -> byte) (delivered : bool) (email : string)
| ReqUpdatePassword (salt : string) (passwordResetToken password : string)
| ReqDeleteUser (id : Z)
| ReqUpdateUser (rnd : nat -> byte) (unlinkFault writeFault : option exn) (id : Z)
    (body : UserQueries.Update)
| ReqCreateToken (rnd : nat -> byte) (now : Z) (user : User.t)
| ReqVerify (now0 now1 : Z) (token : string)
| ReqDeleteToken (token : string)
| ReqClearTokens (userId : Z)
| ReqCleanup (now : Z) (fault : option exn).

(** The store after a request, whether the request returned or threw. *)
Definition exec (bcrypt_hash : string -> string -> string) (q : Request) (w : World) : World :=
  match q with
  | ReqSave salt rnd delivered body =>
      snd (UserService.save bcrypt_hash salt rnd delivered body w)
  | ReqActivate token => snd (UserService.activate token w)
  | ReqPasswordResetRequest rnd delivered email =>
      snd (UserService.passwordResetRequest rnd delivered email w)
  | ReqUpdatePassword salt passwordResetToken password =>
      snd (UserService.updatePassword bcrypt_hash salt passwordResetToken password w)
  | ReqDeleteUser id => snd (UserService.deleteUser id w)
  | ReqUpdateUser rnd unlinkFault writeFault id body =>
      snd (UserQueries.updateUser rnd unlinkFault writeFault id body w)
  | ReqCreateToken rnd now user => snd (TokenService.createToken rnd now user w)
  | ReqVerify now0 now1 token => snd (TokenService.verify now0 now1 token w)
  | ReqDeleteToken token => snd (TokenService.deleteToken token w)
  | ReqClearTokens userId => snd (TokenService.clearTokens userId w)
  | ReqCleanup now fault => snd (TokenService.cleanup now fault w)
  end.

(** The stores the core operations can produce from the empty store. *)
Inductive Reachable (bcrypt_hash : string -> string -> string) : World -> Prop :=
| Reachable_empty : Reachable bcrypt_hash emptyWorld
| Reachable_exec : forall q w,
    Reachable bcrypt_hash w -> Reachable bcrypt_hash (exec bcrypt_hash q w).

(** ** Vocabulary of the further properties *)

(** A lower-case hexadecimal digit. *)
Definition hex_char (c : ascii) : bool :=
  existsb (Ascii.eqb c) (list_ascii_of_string "0123456789abcdef").

Definition all_hex (s : string) : Prop :=
  Forall (fun c => hex_char c = true) (list_ascii_of_string s).

(** The rows a listing shows to the viewer: the active users other than the
    viewer. *)
Definition visible (authenticatedUser : option TokenService.AuthenticatedUser)
    (w : World) : list User.t :=
  filter (UserQueries.listed
            (match authenticatedUser with
             | Some a => TokenService.auth_id a
             | None => Some 0
             end))
         (users w).

(** The entries of the page a listing returned. *)
Definition content_of (out : Result UserQueries.Page * World) : list UserView :=
  match fst out with
  | Ok pg => UserQueries.content pg
  | Throw _ => []
  end.

(** The keys of the store are in order: no two user rows share a primary key
    or an address, no two token rows share a primary key, and every key is
    below the next key of its table. *)
Definition store_wf (w : World) : Prop :=
  NoDup (map User.id (users w))
  /\ NoDup (map User.email (users w))
  /\ (forall u, In u (users w) -> User.id u < nextUserId w)
  /\ NoDup (map Token.id (tokens w))
  /\ (forall r, In r (tokens w) -> Token.id r < nextTokenId w)
  /\ (forall r i, In r (tokens w) -> Token.userId r = Some i ->
        In i (map User.id (users w))).

(** * Properties *)

(** ** Lists of rows *)

Lemma col_eqb_true (c : option string) (v : string) :
  col_eqb c v = true <-> c = Some v.
Proof.
  destruct c as [s|]; simpl.
  - rewrite String.eqb_eq. split; congruence.
  - split; discriminate.
Qed.

Lemma ref_eqb_true (c : option Z) (v : Z) :
  ref_eqb c v = true <-> c = Some v.
Proof.
  destruct c as [i|]; simpl.
  - rewrite Z.eqb_eq. split; congruence.
  - split; discriminate.
Qed.

Lemma find_none_iff {A : Type} (p : A -> bool) (l : list A) :
  find p l = None <-> (forall x, In x l -> p x = false).
Proof.
  split.
  - apply find_none.
  - induction l as [|a l IH]; intros H; simpl.
    + reflexivity.
    + rewrite (H a (or_introl eq_refl)). apply IH.
      intros x Hx. apply H. right. exact Hx.
Qed.

(** The first match is the only match when one row alone satisfies the
    condition. *)
Lemma find_the_one {A : Type} (p : A -> bool) (l : list A) (a : A) :
  In a l -> p a = true ->
  (forall x, In x l -> p x = true -> x = a) ->
  find p l = Some a.
Proof.
  intros Hin Hp Huniq.
  destruct (find p l) as [x|] eqn:E.
  - apply find_some in E. destruct E as [Hx Hpx].
    f_equal. apply Huniq; assumption.
  - rewrite (find_none _ _ E a Hin) in Hp. discriminate.
Qed.

Section SaveRow.

Context {A : Type} (key : A -> Z) (a : A).

(** The rows of a table after [save]: the saved row where its key was, the
    other rows as they were. *)
Lemma in_saved (l : list A) (x : A) :
  In x (map (fun r => if key r =? key a then a else r) l) <->
  (x = a /\ exists y, In y l /\ key y = key a) \/ (In x l /\ key x <> key a).
Proof.
  rewrite in_map_iff. split.
  - intros [y [Hy Hin]]. destruct (Z.eqb_spec (key y) (key a)) as [E|E].
    + left. split; [congruence | exists y; auto].
    + right. subst x. auto.
  - intros [[-> [y [Hin E]]] | [Hin E]].
    + exists y. split; [|assumption].
      apply Z.eqb_eq in E. rewrite E. reflexivity.
    + exists x. split; [|assumption].
      apply Z.eqb_neq in E. rewrite E. reflexivity.
Qed.

(** A lookup that found the row before the save finds the saved row after
    it, when the saved row still satisfies the condition. *)
Lemma find_saved (p : A -> bool) (l : list A) (u : A) :
  find p l = Some u -> key u = key a -> p a = true ->
  find p (map (fun r => if key r =? key a then a else r) l) = Some a.
Proof.
  intros Hfind Hkey Hpa. induction l as [|x l IH]; simpl in *.
  - discriminate.
  - destruct (p x) eqn:Hpx.
    + injection Hfind as ->. apply Z.eqb_eq in Hkey. rewrite Hkey, Hpa.
      reflexivity.
    + destruct (key x =? key a).
      * rewrite Hpa. reflexivity.
      * rewrite Hpx. apply IH. exact Hfind.
Qed.

End SaveRow.

Lemma skipn_length_app {A : Type} (l l' : list A) :
  skipn (List.length l) (l ++ l') = l'.
Proof. induction l as [|a l IH]; simpl; [reflexivity | exact IH]. Qed.

(** ** Random strings *)

Lemma toHex_length (bs : list byte) :
  String.length (toHex bs) = (2 * List.length bs)%nat.
Proof. induction bs as [|b bs IH]; simpl; [reflexivity | rewrite IH; lia]. Qed.

Lemma substring_prefix_length (s : string) (n : nat) :
  (n <= String.length s)%nat -> String.length (substring 0 n s) = n.
Proof.
  revert n. induction s as [|c s IH]; intros n Hn; simpl in *.
  - destruct n; [reflexivity | lia].
  - destruct n as [|n]; simpl; [reflexivity |].
    rewrite IH; [reflexivity | lia].
Qed.

(** [randomString(length)] has [length] characters. *)
Lemma randomString_length (rnd : nat -> byte) (n : nat) :
  String.length (randomString rnd n) = n.
Proof.
  unfold randomString, randomBytes. apply substring_prefix_length.
  rewrite toHex_length, length_map, length_seq. lia.
Qed.

Lemma randomString_nonempty (rnd : nat -> byte) (n : nat) :
  (0 < n)%nat -> randomString rnd n <> "".
Proof.
  intros Hn E. pose proof (randomString_length rnd n) as L.
  rewrite E in L. simpl in L. lia.
Qed.

(** ** Token lifecycle *)

(** The condition of the lookup in [verify]: the row carries the string and
    was used less than [TTL] before [now]. *)
Lemma verify_cond (now : Z) (s : string) (r : Token.t) :
  col_eqb (Token.token r) s && (now - 7 * 24 * 60 * 60 * 1000 <? Token.lastUsedAt r) = true
  <-> carries s r /\ now - Token.lastUsedAt r < TTL.
Proof.
  unfold carries, TTL. rewrite andb_true_iff, col_eqb_true, Z.ltb_lt.
  split; intros [H1 H2]; split; try assumption; lia.
Qed.

(** [verify] when no row that carries the string is fresh enough. *)
Lemma verify_miss (w : World) (s : string) (now0 now1 : Z) :
  (forall r, In r (tokens w) -> carries s r -> TTL <= now0 - Token.lastUsedAt r) ->
  TokenService.verify now0 now1 s w = (Throw TypeError, w).
Proof.
  intros Hold.
  unfold TokenService.verify, Token_findOne, bind, get_tokens, ret, throw.
  replace (find _ (tokens w)) with (@None Token.t); [reflexivity|].
  symmetry. apply find_none_iff. intros r Hin.
  destruct (_ && _) eqn:E; [|reflexivity].
  apply verify_cond in E. destruct E as [Hc Hfresh].
  specialize (Hold r Hin Hc). lia.
Qed.

(** [verify] when the one row that carries the string is fresh enough. *)
Lemma verify_hit (w : World) (s : string) (now0 now1 : Z) (r : Token.t) :
  In r (tokens w) -> carries s r ->
  (forall r', In r' (tokens w) -> carries s r' -> r' = r) ->
  now0 - Token.lastUsedAt r < TTL ->
  TokenService.verify now0 now1 s w
  = (Ok (TokenService.mkAuthenticatedUser (Token.userId r)), refreshed now1 r w).
Proof.
  intros Hin Hc Huniq Hfresh.
  unfold TokenService.verify, Token_findOne, bind, get_tokens, ret.
  rewrite (find_the_one _ (tokens w) r Hin).
  - reflexivity.
  - apply verify_cond. split; assumption.
  - intros x Hx Hpx. apply verify_cond in Hpx. apply Huniq; tauto.
Qed.

(** C1, as stated, fails on the boundary: a row that carries the token exists
    and [now - lastUsedAt] is exactly [TTL], which is not greater than [TTL],
    yet [verify] throws and refreshes nothing. *)
Lemma verify_throws_at_ttl :
  (exists r, In r (tokens oneSession) /\ carries "t0" r /\
             ~ (TTL - Token.lastUsedAt r > TTL)) /\
  TokenService.verify TTL TTL "t0" oneSession = (Throw TypeError, oneSession).
Proof.
  split.
  - exists (Token.mk 1 (Some "t0") (Some 1) 0). simpl.
    split; [left; reflexivity | split; [reflexivity | unfold TTL; lia]].
  - vm_compute. reflexivity.
Qed.

(** C1 (amended): [verify s] throws, and writes nothing, when every row that
    carries [s] (if any) has [now - lastUsedAt >= TTL]; when the one row that
    carries [s] has [now - lastUsedAt < TTL] it sets the [lastUsedAt] of that
    row to the current time, which is not before the time of the verification,
    leaves the other rows alone and returns the owning user's id. *)
Theorem verify_spec (w : World) (s : string) (now0 now1 : Z) :
  now0 <= now1 ->
  ((forall r, In r (tokens w) -> carries s r -> TTL <= now0 - Token.lastUsedAt r) ->
   TokenService.verify now0 now1 s w = (Throw TypeError, w))
  /\
  (forall r,
     In r (tokens w) -> carries s r ->
     (forall r', In r' (tokens w) -> carries s r' -> r' = r) ->
     now0 - Token.lastUsedAt r < TTL ->
     exists w',
       TokenService.verify now0 now1 s w
       = (Ok (TokenService.mkAuthenticatedUser (Token.userId r)), w')
       /\ users w' = users w
       /\ In (Token.set_lastUsedAt now1 r) (tokens w')
       /\ (forall x, In x (tokens w') -> carries s x ->
                     Token.lastUsedAt x = now1 /\ now0 <= Token.lastUsedAt x)
       /\ (forall x, Token.id x <> Token.id r ->
                     (In x (tokens w') <-> In x (tokens w)))).
Proof.
  intros Hclock. split.
  - apply verify_miss.
  - intros r Hin Hc Huniq Hfresh.
    exists (refreshed now1 r w). split; [apply verify_hit; assumption|].
    cbn. split; [reflexivity|]. split; [|split].
    + apply (in_saved Token.id (Token.set_lastUsedAt now1 r)). left.
      split; [reflexivity|]. exists r. split; [assumption | reflexivity].
    + intros x Hx Hcx.
      apply (in_saved Token.id (Token.set_lastUsedAt now1 r)) in Hx.
      destruct Hx as [[-> _] | [Hx Hid]].
      * cbn. split; [reflexivity | exact Hclock].
      * exfalso. apply Hid. rewrite (Huniq x Hx Hcx). reflexivity.
    + intros x Hid.
      rewrite (in_saved Token.id (Token.set_lastUsedAt now1 r)). cbn. split.
      * intros [[-> _] | [Hx _]]; [exfalso; apply Hid; reflexivity | exact Hx].
      * intros Hx. right. split; assumption.
Qed.

(** [verify_spec] on a session used four days ago: it is refreshed. *)
Lemma verify_spec_witness :
  exists w',
    TokenService.verify 345600000 345600001 "t0" oneSession
    = (Ok (TokenService.mkAuthenticatedUser (Some 1)), w')
    /\ In (Token.mk 1 (Some "t0") (Some 1) 345600001) (tokens w').
Proof.
  destruct (verify_spec oneSession "t0" 345600000 345600001) as [_ H].
  - lia.
  - destruct (H (Token.mk 1 (Some "t0") (Some 1) 0)) as [w' [E [_ [Hin _]]]].
    + simpl. left. reflexivity.
    + reflexivity.
    + simpl. intros r' [<- | []] _. reflexivity.
    + unfold TTL. simpl. lia.
    + exists w'. split; [exact E | exact Hin].
Defined.

(** The owner of a new token row is in the user table. *)
Lemma owner_known (w : World) (id : Z) :
  existsb (fun x => User.id x =? id) (users w) = true
  <-> exists x, In x (users w) /\ User.id x = id.
Proof.
  rewrite existsb_exists.
  split; intros [x [Hx E]]; exists x; split; try assumption; apply Z.eqb_eq; exact E.
Qed.

(** [createToken] for a user of the user table. *)
Lemma createToken_run (w : World) (rnd : nat -> byte) (now : Z) (user : User.t) :
  (exists x, In x (users w) /\ User.id x = User.id user) ->
  TokenService.createToken rnd now user w
  = (Ok (randomString rnd 32),
     mkWorld (users w)
             (tokens w ++ [Token.mk (nextTokenId w) (Some (randomString rnd 32))
                                    (Some (User.id user)) now])
             (nextUserId w) (nextTokenId w + 1)
             (journal w
              ++ [ETokenCreate (Token.mk (nextTokenId w) (Some (randomString rnd 32))
                                         (Some (User.id user)) now)])).
Proof.
  intros Hknown. apply owner_known in Hknown.
  unfold TokenService.createToken, bind, Token_create, ret. rewrite Hknown.
  reflexivity.
Qed.

(** [createToken] for an id that no user row has: the foreign key refuses
    the row. *)
Lemma createToken_refused (w : World) (rnd : nat -> byte) (now : Z) (user : User.t) :
  (forall x, In x (users w) -> User.id x <> User.id user) ->
  TokenService.createToken rnd now user w
  = (Throw SequelizeForeignKeyConstraintError, w).
Proof.
  intros Hnone.
  unfold TokenService.createToken, bind, Token_create, ret.
  destruct (existsb _ (users w)) eqn:E; [|reflexivity].
  apply owner_known in E. destruct E as [x [Hx E]].
  exfalso. exact (Hnone x Hx E).
Qed.

(** C9: a token issued for a user of the user table, when its string is not
    already in the token table, verifies at once (less than [TTL] after the
    issue) and [verify] returns the id of that user. *)
Theorem issue_then_verify (w : World) (u : User.t) (rnd : nat -> byte)
    (issuedAt now0 now1 : Z) :
  In u (users w) ->
  (forall r, In r (tokens w) -> ~ carries (randomString rnd 32) r) ->
  now0 - issuedAt < TTL ->
  exists t w1 w2,
    TokenService.createToken rnd issuedAt u w = (Ok t, w1)
    /\ TokenService.verify now0 now1 t w1
       = (Ok (TokenService.mkAuthenticatedUser (Some (User.id u))), w2).
Proof.
  intros Hu Hnew Hsoon.
  set (t := randomString rnd 32).
  set (r := Token.mk (nextTokenId w) (Some t) (Some (User.id u)) issuedAt).
  exists t. eexists. eexists. split.
  - apply createToken_run. exists u. split; [exact Hu | reflexivity].
  - apply (verify_hit _ t now0 now1 r).
    + cbn. apply in_or_app. right. left. reflexivity.
    + reflexivity.
    + cbn. intros r' Hin Hc. apply in_app_or in Hin.
      destruct Hin as [Hin | [<- | []]].
      * exfalso. exact (Hnew r' Hin Hc).
      * reflexivity.
    + exact Hsoon.
Qed.

(** [issue_then_verify] for the first login of the one user of the store. *)
Lemma issue_then_verify_witness :
  exists t w1 w2,
    TokenService.createToken (fun _ => x2a) 1000
      (User.mk 1 "user1" "user1@mail.com" "hash" None None None false) oneActiveUser
    = (Ok t, w1)
    /\ TokenService.verify 2000 2001 t w1
       = (Ok (TokenService.mkAuthenticatedUser (Some 1)), w2).
Proof.
  apply (issue_then_verify oneActiveUser
           (User.mk 1 "user1" "user1@mail.com" "hash" None None None false)
           (fun _ => x2a) 1000 2000 2001).
  - left. reflexivity.
  - simpl. intros r [].
  - unfold TTL. lia.
Defined.

(** ** The background sweep *)

(** The condition of the [destroy] in the sweep, in the words of the
    properties: the row was last used more than [TTL] before [now]. *)
Lemma cleanup_cond (now : Z) (r : Token.t) :
  (Token.lastUsedAt r <? now - 7 * 24 * 60 * 60 * 1000) = (TTL <? now - Token.lastUsedAt r).
Proof.
  unfold TTL.
  destruct (Z.ltb_spec (Token.lastUsedAt r) (now - 7 * 24 * 60 * 60 * 1000));
    destruct (Z.ltb_spec 604800000 (now - Token.lastUsedAt r)); reflexivity || lia.
Qed.

(** C4, as stated, fails: the callback of the sweep has no handler for an
    error of the store.  The error leaves the callback, and the firing of the
    timer ends with a rejection that nothing handles. *)
Lemma cleanup_error_escapes :
  fst (TokenService.callback TokenService.scheduleCleanup TTL
         (Some SequelizeDatabaseError) oneSession)
  = Throw SequelizeDatabaseError
  /\ unhandledRejections
       (runInterval TokenService.scheduleCleanup
          [(TTL, Some SequelizeDatabaseError)] (mkProcess oneSession []))
     = [SequelizeDatabaseError].
Proof. split; reflexivity. Qed.

(** A firing of the sweep in which the store works. *)
Lemma fire_cleanup (p : Process) (now : Z) :
  fire TokenService.scheduleCleanup p (now, None)
  = mkProcess
      (mkWorld (users (world p))
               (filter (fun r => negb (Token.lastUsedAt r <? now - 7 * 24 * 60 * 60 * 1000))
                       (tokens (world p)))
               (nextUserId (world p)) (nextTokenId (world p))
               (journal (world p)
                ++ [ETokenDestroy
                      (filter (fun r => Token.lastUsedAt r <? now - 7 * 24 * 60 * 60 * 1000)
                              (tokens (world p)))]))
      (unhandledRejections p).
Proof. reflexivity. Qed.

Lemma swept_rows (now : Z) (ts : list Token.t) :
  filter (fun r => negb (Token.lastUsedAt r <? now - 7 * 24 * 60 * 60 * 1000)) ts
  = filter (fun r => negb (TTL <? now - Token.lastUsedAt r)) ts.
Proof. apply filter_ext. intros r. rewrite cleanup_cond. reflexivity. Qed.

(** C4 (amended): the timer of the sweep has a period of one hour; a firing
    in which the store works deletes exactly the token rows last used more
    than [TTL] ago, keeps the others in their order, and touches no user; a
    firing in which the store fails deletes nothing, and the error is not
    caught in the callback: it becomes a rejection that nothing handles.  The
    timer is not cancelled by it: a later firing in which the store works
    sweeps the table as it then is. *)
Theorem cleanup_spec (p : Process) (now : Z) (fault : option exn) :
  TokenService.delay TokenService.scheduleCleanup = ONE_HOUR
  /\ match fault with
     | None =>
         unhandledRejections (fire TokenService.scheduleCleanup p (now, None))
         = unhandledRejections p
         /\ tokens (world (fire TokenService.scheduleCleanup p (now, None)))
            = filter (fun r => negb (TTL <? now - Token.lastUsedAt r)) (tokens (world p))
         /\ (forall r,
               In r (tokens (world (fire TokenService.scheduleCleanup p (now, None))))
               <-> In r (tokens (world p)) /\ ~ (now - Token.lastUsedAt r > TTL))
         /\ users (world (fire TokenService.scheduleCleanup p (now, None)))
            = users (world p)
     | Some e =>
         unhandledRejections (fire TokenService.scheduleCleanup p (now, Some e))
         = unhandledRejections p ++ [e]
         /\ world (fire TokenService.scheduleCleanup p (now, Some e)) = world p
     end
  /\ (forall ticks later,
        tokens (world (runInterval TokenService.scheduleCleanup
                         (ticks ++ [(later, None)]) p))
        = filter (fun r => negb (TTL <? later - Token.lastUsedAt r))
                 (tokens (world (runInterval TokenService.scheduleCleanup ticks p)))).
Proof.
  split; [reflexivity|]. split.
  - destruct fault as [e|].
    + split; reflexivity.
    + rewrite fire_cleanup. cbn [world tokens users unhandledRejections].
      rewrite swept_rows.
      split; [reflexivity|]. split; [reflexivity|]. split; [|reflexivity].
      intros r. rewrite filter_In, negb_true_iff, Z.ltb_ge. split.
      * intros [Hin Hle]. split; [exact Hin | lia].
      * intros [Hin Hle]. split; [exact Hin | lia].
  - intros ticks later. unfold runInterval. rewrite fold_left_app.
    cbn [fold_left]. rewrite fire_cleanup. cbn [world tokens].
    apply swept_rows.
Qed.

(** ** Registration and activation *)

Section UserServiceFacts.

Variable bcrypt_hash : string -> string -> string.

(** The three runs of [save]: the store refuses the row, the mail goes out,
    the mail is refused. *)
Lemma save_run (salt : string) (rnd : nat -> byte) (delivered : bool)
    (body : UserService.Body) (w : World) :
  UserService.save bcrypt_hash salt rnd delivered body w
  = if email_in_use (UserService.body_email body) w
    then (Throw EmailException,
          mkWorld (users w) (tokens w) (nextUserId w) (nextTokenId w)
                  (journal w ++ [ERollback]))
    else if delivered
    then (Ok tt,
          mkWorld (users w ++ [registered bcrypt_hash salt rnd body w]) (tokens w)
                  (nextUserId w + 1) (nextTokenId w)
                  (journal w ++ [EUserCreate (registered bcrypt_hash salt rnd body w);
                                 EMail (activationMail rnd body) true; ECommit]))
    else (Throw EmailException,
          mkWorld (users w) (tokens w) (nextUserId w) (nextTokenId w)
                  (journal w ++ [EUserCreate (registered bcrypt_hash salt rnd body w);
                                 EMail (activationMail rnd body) false; ERollback])).
Proof.
  unfold UserService.save, email_in_use, transaction, try_catch, bind, User_create.
  cbn. destruct (existsb _ (users w)); cbn.
  - reflexivity.
  - destruct delivered; cbn; rewrite <- !app_assoc; reflexivity.
Qed.

(** A failed registration leaves no row. *)
Lemma save_failed_users (salt : string) (rnd : nat -> byte) (delivered : bool)
    (body : UserService.Body) (w : World) :
  fst (UserService.save bcrypt_hash salt rnd delivered body w) <> Ok tt ->
  users (snd (UserService.save bcrypt_hash salt rnd delivered body w)) = users w.
Proof.
  rewrite save_run.
  destruct (email_in_use _ w); [reflexivity|].
  destruct delivered; [|reflexivity].
  intros H. exfalso. apply H. reflexivity.
Qed.

(** C2: a registration with an address that no user row has, so that the
    row is created and the activation mail is attempted.  When the mail
    server accepts the mail, [save] returns and has added exactly one user
    row, with the address of the request, inactive and with a non-empty
    activation secret; the mail went out with that secret and the
    transaction was committed after it.  When the mail server refuses the
    mail, [save] throws [EmailException] and the user table is what it was:
    the row that was created is rolled back. *)
Theorem save_spec (salt : string) (rnd : nat -> byte) (body : UserService.Body)
    (w : World) :
  email_in_use (UserService.body_email body) w = false ->
  (exists u secret w',
     UserService.save bcrypt_hash salt rnd true body w = (Ok tt, w')
     /\ users w' = users w ++ [u]
     /\ tokens w' = tokens w
     /\ User.email u = UserService.body_email body
     /\ User.inactive u = true
     /\ User.activationToken u = Some secret /\ secret <> ""
     /\ effects_since w w'
        = [EUserCreate u;
           EMail (mkMail "My App" (UserService.body_email body) "Account Activation"
                         ("Token is " ++ secret)%string) true;
           ECommit])
  /\ (exists u w',
        UserService.save bcrypt_hash salt rnd false body w = (Throw EmailException, w')
        /\ users w' = users w
        /\ tokens w' = tokens w
        /\ nextUserId w' = nextUserId w
        /\ effects_since w w'
           = [EUserCreate u; EMail (activationMail rnd body) false; ERollback]).
Proof.
  intros Hfree. split.
  - exists (registered bcrypt_hash salt rnd body w), (randomString rnd 16). eexists.
    rewrite save_run, Hfree. split; [reflexivity|].
    unfold effects_since. cbn [users tokens journal]. rewrite skipn_length_app.
    repeat (split; [reflexivity|]).
    split; [apply randomString_nonempty; lia | reflexivity].
  - exists (registered bcrypt_hash salt rnd body w). eexists.
    rewrite save_run, Hfree. split; [reflexivity|].
    unfold effects_since. cbn [users tokens nextUserId journal].
    rewrite skipn_length_app. repeat split.
Qed.

End UserServiceFacts.

(** [save_spec] on the empty store, once with a delivered and once with a
    refused mail. *)
Lemma save_spec_witness :
  (fst (UserService.save sample_hash "s" (fun _ => x2a) true
          (UserService.mkBody "user1" "user1@mail.com" "P4ssword") emptyWorld) = Ok tt
   /\ List.length
        (users (snd (UserService.save sample_hash "s" (fun _ => x2a) true
                       (UserService.mkBody "user1" "user1@mail.com" "P4ssword")
                       emptyWorld))) = 1%nat)
  /\ (fst (UserService.save sample_hash "s" (fun _ => x2a) false
             (UserService.mkBody "user1" "user1@mail.com" "P4ssword") emptyWorld)
      = Throw EmailException
      /\ users (snd (UserService.save sample_hash "s" (fun _ => x2a) false
                       (UserService.mkBody "user1" "user1@mail.com" "P4ssword")
                       emptyWorld)) = []).
Proof.
  destruct (save_spec sample_hash "s" (fun _ => x2a)
              (UserService.mkBody "user1" "user1@mail.com" "P4ssword") emptyWorld
              eq_refl)
    as [[u [secret [w1 [E1 [Hrows _]]]]] [u' [w2 [E2 [Hkept _]]]]].
  rewrite E1, E2. cbn [fst snd]. rewrite Hrows, Hkept.
  repeat split.
Defined.

Lemma activation_cond (s : string) (u : User.t) :
  col_eqb (User.activationToken u) s = true <-> holds_activation s u.
Proof. apply col_eqb_true. Qed.

(** [activate] on a secret that no user holds. *)
Lemma activate_miss (w : World) (s : string) :
  (forall u, In u (users w) -> ~ holds_activation s u) ->
  UserService.activate s w = (Throw InvalidTokenEexception, w).
Proof.
  intros Hnone. unfold UserService.activate, User_findOne, bind, get_users, ret.
  replace (find _ (users w)) with (@None User.t); [reflexivity|].
  symmetry. apply find_none_iff. intros u Hin.
  destruct (col_eqb _ s) eqn:E; [|reflexivity].
  apply activation_cond in E. exfalso. exact (Hnone u Hin E).
Qed.

(** [activate] on the secret of the user [u]. *)
Lemma activate_hit (w : World) (s : string) (u : User.t) :
  In u (users w) -> holds_activation s u ->
  (forall u', In u' (users w) -> holds_activation s u' -> u' = u) ->
  UserService.activate s w = (Ok tt, saved_user (activated u) w).
Proof.
  intros Hin Hs Huniq.
  unfold UserService.activate, User_findOne, bind, get_users, ret.
  rewrite (find_the_one _ (users w) u Hin).
  - reflexivity.
  - apply activation_cond. exact Hs.
  - intros x Hx Hpx. apply activation_cond in Hpx. apply Huniq; assumption.
Qed.

(** C7: [activate] on a secret that no user holds throws
    [InvalidTokenEexception] and changes nothing; on the secret of a user it
    returns after one write to the store, the save of that user's row with
    the activation secret cleared and [inactive] false, the other rows and
    the tokens untouched; a second call with the same secret throws
    [InvalidTokenEexception]. *)
Theorem activate_spec (w : World) (s : string) :
  ((forall u, In u (users w) -> ~ holds_activation s u) ->
   UserService.activate s w = (Throw InvalidTokenEexception, w))
  /\
  (forall u,
     In u (users w) -> holds_activation s u ->
     (forall u', In u' (users w) -> holds_activation s u' -> u' = u) ->
     exists w',
       UserService.activate s w = (Ok tt, w')
       /\ effects_since w w' = [EUserSave (activated u)]
       /\ User.activationToken (activated u) = None
       /\ User.inactive (activated u) = false
       /\ In (activated u) (users w')
       /\ (forall x, In x (users w') -> User.id x = User.id u -> x = activated u)
       /\ (forall x, User.id x <> User.id u -> (In x (users w') <-> In x (users w)))
       /\ tokens w' = tokens w
       /\ UserService.activate s w' = (Throw InvalidTokenEexception, w')).
Proof.
  split; [apply activate_miss|].
  intros u Hin Hs Huniq. exists (saved_user (activated u) w).
  split; [apply activate_hit; assumption|].
  split; [apply skipn_length_app|].
  split; [reflexivity|]. split; [reflexivity|].
  assert (Hrows : forall x, In x (users (saved_user (activated u) w)) <->
            (x = activated u /\ exists y, In y (users w) /\ User.id y = User.id u)
            \/ (In x (users w) /\ User.id x <> User.id u)).
  { intros x. apply (in_saved User.id (activated u)). }
  split; [|split; [|split; [|split]]].
  - apply Hrows. left. split; [reflexivity|]. exists u. auto.
  - intros x Hx Hid. apply Hrows in Hx. destruct Hx as [[-> _] | [_ Hne]].
    + reflexivity.
    + contradiction.
  - intros x Hne. rewrite Hrows. split.
    + intros [[-> _] | [Hx _]]; [exfalso; apply Hne; reflexivity | exact Hx].
    + intros Hx. right. auto.
  - reflexivity.
  - apply activate_miss. intros x Hx Hsx.
    apply Hrows in Hx. destruct Hx as [[-> _] | [Hx Hne]].
    + discriminate Hsx.
    + apply Hne. rewrite (Huniq x Hx Hsx). reflexivity.
Qed.

(** [activate_spec] on the store with one inactive user: the first call
    activates the user, the second is refused. *)
Lemma activate_spec_witness :
  exists w',
    UserService.activate "a1b2c3d4e5f60718" oneInactiveUser = (Ok tt, w')
    /\ users w' = [User.mk 1 "user1" "user1@mail.com" "hash" None None None false]
    /\ UserService.activate "a1b2c3d4e5f60718" w' = (Throw InvalidTokenEexception, w').
Proof.
  destruct (activate_spec oneInactiveUser "a1b2c3d4e5f60718") as [_ H].
  destruct (H (User.mk 1 "user1" "user1@mail.com" "hash" (Some "a1b2c3d4e5f60718")
                       None None true))
    as [w' [E [_ [_ [_ [_ [_ [_ [_ E2]]]]]]]]].
  - simpl. left. reflexivity.
  - reflexivity.
  - simpl. intros u' [<- | []] _. reflexivity.
  - exists w'. split; [exact E|]. split; [|exact E2].
    assert (E0 : UserService.activate "a1b2c3d4e5f60718" oneInactiveUser
                 = (Ok tt, saved_user
                      (User.mk 1 "user1" "user1@mail.com" "hash" None None None false)
                      oneInactiveUser)) by reflexivity.
    rewrite E0 in E. injection E as <-. reflexivity.
Defined.

(** ** Password reset *)

(** [passwordResetRequest] for an address that [findByEmail] knows: the row
    is saved, then the mail is handed over, and only the result depends on
    the delivery. *)
Lemma passwordResetRequest_known (w : World) (rnd : nat -> byte) (delivered : bool)
    (email : string) (u : User.t) :
  UserService.findByEmail email w = (Ok (Some u), w) ->
  UserService.passwordResetRequest rnd delivered email w
  = (if delivered then Ok tt else Throw EmailException,
     mkWorld (users (saved_user (with_reset_secret (randomString rnd 16) u) w))
             (tokens w) (nextUserId w) (nextTokenId w)
             (journal w ++ [EUserSave (with_reset_secret (randomString rnd 16) u);
                            EMail (resetMail email (randomString rnd 16)) delivered])).
Proof.
  intros Hknown. unfold UserService.passwordResetRequest, bind. rewrite Hknown.
  unfold try_catch, User_save, bind. cbn.
  destruct delivered; cbn; rewrite <- !app_assoc; reflexivity.
Qed.

(** [findByEmail] in a store whose user table is the one after a save that
    keeps the address of the row. *)
Lemma findByEmail_saved (w w' : World) (email : string) (u u' : User.t) :
  UserService.findByEmail email w = (Ok (Some u), w) ->
  User.id u' = User.id u -> User.email u' = User.email u ->
  users w' = users (saved_user u' w) ->
  UserService.findByEmail email w' = (Ok (Some u'), w').
Proof.
  unfold UserService.findByEmail, User_findOne, bind, get_users, ret.
  intros Hknown Hid Hmail Husers. injection Hknown as Hfind.
  rewrite Husers. cbn [users saved_user].
  rewrite (find_saved User.id u' _ (users w) u).
  - reflexivity.
  - exact Hfind.
  - symmetry. exact Hid.
  - rewrite Hmail. apply find_some in Hfind. tauto.
Qed.

(** C5: for an address that [findByEmail] knows, [passwordResetRequest] first
    saves the user's row with the new reset secret and then hands the mail to
    the dispatcher; when the mail is refused it throws [EmailException] and
    the saved secret stays in the store, whereas a registration whose mail is
    refused leaves no row. *)
Theorem passwordResetRequest_spec (bcrypt_hash : string -> string -> string)
    (w : World) (rnd : nat -> byte) (delivered : bool) (email : string) (u : User.t) :
  UserService.findByEmail email w = (Ok (Some u), w) ->
  let secret := randomString rnd 16 in
  let out := UserService.passwordResetRequest rnd delivered email w in
  effects_since w (snd out)
  = [EUserSave (with_reset_secret secret u); EMail (resetMail email secret) delivered]
  /\ fst out = (if delivered then Ok tt else Throw EmailException)
  /\ UserService.findByEmail email (snd out)
     = (Ok (Some (with_reset_secret secret u)), snd out)
  /\ holds_reset secret (with_reset_secret secret u)
  /\ (forall salt body,
        users (snd (UserService.save bcrypt_hash salt rnd false body w)) = users w).
Proof.
  intros Hknown. cbv zeta.
  rewrite (passwordResetRequest_known w rnd delivered email u Hknown).
  cbn [fst snd]. split; [|split; [|split; [|split]]].
  - unfold effects_since. cbn [journal]. apply skipn_length_app.
  - reflexivity.
  - apply (findByEmail_saved w _ email u); auto.
  - reflexivity.
  - intros salt body. apply save_failed_users.
    rewrite save_run. destruct (email_in_use _ w); discriminate.
Qed.

(** [passwordResetRequest_spec] with a refused mail: the request throws and
    the secret is in the store. *)
Lemma passwordResetRequest_spec_witness :
  fst (UserService.passwordResetRequest (fun _ => x2a) false "user1@mail.com"
         oneActiveUser) = Throw EmailException
  /\ users (snd (UserService.passwordResetRequest (fun _ => x2a) false
                   "user1@mail.com" oneActiveUser))
     = [User.mk 1 "user1" "user1@mail.com" "hash" None (Some "2a2a2a2a2a2a2a2a")
                None false].
Proof.
  destruct (passwordResetRequest_spec sample_hash oneActiveUser (fun _ => x2a) false
              "user1@mail.com"
              (User.mk 1 "user1" "user1@mail.com" "hash" None None None false)
              eq_refl) as [_ [E _]].
  split; [exact E | reflexivity].
Defined.

Section PasswordUpdate.

Variable bcrypt_hash : string -> string -> string.

Lemma reset_cond (s : string) (u : User.t) :
  col_eqb (User.passwordResetToken u) s = true <-> holds_reset s u.
Proof. apply col_eqb_true. Qed.

(** No user holds the reset secret [s]: the lookup returns [null]. *)
Lemma findByPasswordResetToken_none (w : World) (s : string) :
  (forall u, In u (users w) -> ~ holds_reset s u) ->
  UserService.findByPasswordResetToken s w = (Ok None, w).
Proof.
  intros Hnone.
  unfold UserService.findByPasswordResetToken, User_findOne, bind, get_users, ret.
  replace (find _ (users w)) with (@None User.t); [reflexivity|].
  symmetry. apply find_none_iff. intros u Hin.
  destruct (col_eqb _ s) eqn:E; [|reflexivity].
  apply reset_cond in E. exfalso. exact (Hnone u Hin E).
Qed.

(** [updatePassword] on a secret that no user holds. *)
Lemma updatePassword_miss (w : World) (salt s password : string) :
  (forall u, In u (users w) -> ~ holds_reset s u) ->
  UserService.updatePassword bcrypt_hash salt s password w = (Throw TypeError, w).
Proof.
  intros Hnone. unfold UserService.updatePassword, bind.
  rewrite (findByPasswordResetToken_none w s Hnone). reflexivity.
Qed.

(** [updatePassword] on the reset secret of the user [u]. *)
Lemma updatePassword_hit (w : World) (salt s password : string) (u : User.t) :
  In u (users w) -> holds_reset s u ->
  (forall u', In u' (users w) -> holds_reset s u' -> u' = u) ->
  UserService.updatePassword bcrypt_hash salt s password w
  = (Ok tt, password_updated bcrypt_hash salt password u w).
Proof.
  intros Hin Hs Huniq.
  unfold UserService.updatePassword, UserService.findByPasswordResetToken,
    User_findOne, bind, get_users, ret.
  rewrite (find_the_one _ (users w) u Hin).
  - unfold password_updated. cbn. unfold log. cbn.
    rewrite <- !app_assoc. reflexivity.
  - apply reset_cond. exact Hs.
  - intros x Hx Hpx. apply reset_cond in Hpx. apply Huniq; assumption.
Qed.


(** C3: [updatePassword] with the reset secret of a user returns; the row of
    that user then has the hash of the new password, no reset secret, no
    activation secret and [inactive] false; no token row of that user is
    left, the token rows of the other users are as they were; and [verify]
    on a token string that was carried by a row of that user throws. *)
Theorem updatePassword_spec (w : World) (salt s password : string) (u : User.t) :
  In u (users w) -> holds_reset s u ->
  (forall u', In u' (users w) -> holds_reset s u' -> u' = u) ->
  exists w' u',
    UserService.updatePassword bcrypt_hash salt s password w = (Ok tt, w')
    /\ In u' (users w')
    /\ (forall x, In x (users w') -> User.id x = User.id u -> x = u')
    /\ User.id u' = User.id u
    /\ User.password u' = bcrypt_hash salt password
    /\ User.passwordResetToken u' = None
    /\ User.activationToken u' = None
    /\ User.inactive u' = false
    /\ (forall r, In r (tokens w') -> Token.userId r <> Some (User.id u))
    /\ (forall r, Token.userId r <> Some (User.id u) ->
                  (In r (tokens w') <-> In r (tokens w)))
    /\ (forall t now0 now1,
          (exists r, In r (tokens w) /\ carries t r /\ Token.userId r = Some (User.id u)) ->
          (forall r r', In r (tokens w) -> In r' (tokens w) ->
                        carries t r -> carries t r' -> r = r') ->
          TokenService.verify now0 now1 t w' = (Throw TypeError, w')).
Proof.
  intros Hin Hs Huniq.
  exists (password_updated bcrypt_hash salt password u w), (with_new_password bcrypt_hash salt password u).
  split; [apply updatePassword_hit; assumption|].
  assert (Hrows : forall x, In x (users (password_updated bcrypt_hash salt password u w)) <->
            (x = with_new_password bcrypt_hash salt password u
             /\ exists y, In y (users w) /\ User.id y = User.id u)
            \/ (In x (users w) /\ User.id x <> User.id u)).
  { intros x. apply (in_saved User.id (with_new_password bcrypt_hash salt password u)). }
  assert (Htok : forall r, In r (tokens (password_updated bcrypt_hash salt password u w)) <->
            In r (tokens w) /\ Token.userId r <> Some (User.id u)).
  { intros r. cbn [tokens password_updated]. rewrite filter_In, negb_true_iff.
    rewrite <- ref_eqb_true. destruct (ref_eqb _ _); intuition congruence. }
  split; [|split; [|repeat (split; [reflexivity|]); split; [|split]]].
  - apply Hrows. left. split; [reflexivity|]. exists u. auto.
  - intros x Hx Hid. apply Hrows in Hx. destruct Hx as [[-> _] | [_ Hne]].
    + reflexivity.
    + contradiction.
  - intros r Hr. apply Htok in Hr. tauto.
  - intros r Hne. rewrite Htok. tauto.
  - intros t now0 now1 [r [Hr [Hc Hown]]] Honly.
    apply verify_miss. intros r' Hr' Hc'. exfalso.
    apply Htok in Hr'. destruct Hr' as [Hr' Hne].
    apply Hne. rewrite <- (Honly r r' Hr Hr' Hc Hc'). exact Hown.
Qed.

End PasswordUpdate.


(** [updatePassword_spec] for the pending reset: the sessions of user 1 are
    gone, the session of user 2 stays. *)
Lemma updatePassword_spec_witness :
  exists w',
    UserService.updatePassword sample_hash "salt" "0011223344556677" "N3wPassword"
      resetPending = (Ok tt, w')
    /\ (forall r, In r (tokens w') -> Token.userId r <> Some 1)
    /\ TokenService.verify 1000 1001 "t1" w' = (Throw TypeError, w').
Proof.
  destruct (updatePassword_spec sample_hash resetPending "salt" "0011223344556677"
              "N3wPassword"
              (User.mk 1 "user1" "user1@mail.com" "hash" (Some "a1b2c3d4e5f60718")
                       (Some "0011223344556677") None true))
    as [w' [u' [E [_ [_ [_ [_ [_ [_ [_ [Hgone [_ Hverify]]]]]]]]]]]].
  - simpl. left. reflexivity.
  - reflexivity.
  - simpl. intros x [<- | [<- | []]] Hx; [reflexivity | discriminate Hx].
  - exists w'. split; [exact E|]. split; [exact Hgone|].
    apply Hverify.
    + exists (Token.mk 1 (Some "t1") (Some 1) 0). simpl.
      split; [left; reflexivity | split; reflexivity].
    + simpl. intros r r' [<- | [<- | [<- | []]]] [<- | [<- | [<- | []]]] H1 H2;
        reflexivity || discriminate.
Defined.

Lemma find_finds {A : Type} (p : A -> bool) (l : list A) (a : A) :
  In a l -> p a = true -> exists x, find p l = Some x /\ p x = true.
Proof.
  intros Hin Hp. destruct (find p l) as [x|] eqn:E.
  - exists x. split; [reflexivity|]. apply find_some in E. tauto.
  - rewrite (find_none _ _ E a Hin) in Hp. discriminate.
Qed.

(** C10: two reset requests for a known address, with different secrets.
    The second save overwrites the secret of the first: after it the user's
    row holds the second secret, no row holds the first one (no other user
    held it), the lookup by the first secret returns [null] and
    [updatePassword] with it throws without a write, while the lookup by the
    second secret finds a row that holds it. *)
Theorem second_request_overwrites_secret (bcrypt_hash : string -> string -> string)
    (w : World) (rnd1 rnd2 : nat -> byte) (delivered1 delivered2 : bool)
    (email : string) (u : User.t) :
  UserService.findByEmail email w = (Ok (Some u), w) ->
  randomString rnd1 16 <> randomString rnd2 16 ->
  (forall x, In x (users w) -> User.id x <> User.id u ->
             ~ holds_reset (randomString rnd1 16) x) ->
  let w1 := snd (UserService.passwordResetRequest rnd1 delivered1 email w) in
  let w2 := snd (UserService.passwordResetRequest rnd2 delivered2 email w1) in
  (exists u1, UserService.findByEmail email w1 = (Ok (Some u1), w1)
              /\ holds_reset (randomString rnd1 16) u1)
  /\ (exists u2, UserService.findByEmail email w2 = (Ok (Some u2), w2)
                 /\ holds_reset (randomString rnd2 16) u2)
  /\ (forall x, In x (users w2) -> ~ holds_reset (randomString rnd1 16) x)
  /\ UserService.findByPasswordResetToken (randomString rnd1 16) w2 = (Ok None, w2)
  /\ (forall salt password,
        UserService.updatePassword bcrypt_hash salt (randomString rnd1 16) password w2
        = (Throw TypeError, w2))
  /\ (exists x, UserService.findByPasswordResetToken (randomString rnd2 16) w2
                = (Ok (Some x), w2)
                /\ holds_reset (randomString rnd2 16) x).
Proof.
  intros Hknown Hdiff Hothers. cbv zeta.
  set (r1 := randomString rnd1 16) in *. set (r2 := randomString rnd2 16) in *.
  set (u1 := with_reset_secret r1 u). set (u2 := with_reset_secret r2 u1).
  rewrite (passwordResetRequest_known w rnd1 delivered1 email u Hknown).
  cbn [snd]. fold r1 u1.
  match goal with |- context [UserService.passwordResetRequest _ _ _ ?x] => set (w1 := x) end.
  assert (Hknown1 : UserService.findByEmail email w1 = (Ok (Some u1), w1)).
  { apply (findByEmail_saved w w1 email u u1); auto. }
  rewrite (passwordResetRequest_known w1 rnd2 delivered2 email u1 Hknown1).
  cbn [snd]. fold r2 u2.
  match goal with
  | |- context [UserService.findByPasswordResetToken _ ?x] => set (w2 := x)
  end.
  assert (Hknown2 : UserService.findByEmail email w2 = (Ok (Some u2), w2)).
  { apply (findByEmail_saved w1 w2 email u1 u2); auto. }
  assert (Hin2 : forall x, In x (users w2) <->
            (x = u2 /\ exists y, In y (users w1) /\ User.id y = User.id u2)
            \/ (In x (users w1) /\ User.id x <> User.id u2)).
  { intros x. apply (in_saved User.id u2). }
  assert (Hin1 : forall x, In x (users w1) <->
            (x = u1 /\ exists y, In y (users w) /\ User.id y = User.id u1)
            \/ (In x (users w) /\ User.id x <> User.id u1)).
  { intros x. apply (in_saved User.id u1). }
  assert (Hgone : forall x, In x (users w2) -> ~ holds_reset r1 x).
  { intros x Hx Hholds. apply Hin2 in Hx. destruct Hx as [[-> _] | [Hx Hne]].
    - change (Some r2 = Some r1) in Hholds. congruence.
    - apply Hin1 in Hx. destruct Hx as [[-> _] | [Hx Hne1]].
      + apply Hne. reflexivity.
      + exact (Hothers x Hx Hne1 Hholds). }
  split; [exists u1; split; [exact Hknown1 | reflexivity]|].
  split; [exists u2; split; [exact Hknown2 | reflexivity]|].
  split; [exact Hgone|].
  split; [apply findByPasswordResetToken_none; exact Hgone|].
  split; [intros salt password; apply updatePassword_miss; exact Hgone|].
  assert (Hu2 : In u2 (users w2)).
  { unfold UserService.findByEmail, User_findOne, bind, get_users, ret in Hknown2.
    injection Hknown2 as Hfind. apply find_some in Hfind. tauto. }
  destruct (find_finds (fun r => col_eqb (User.passwordResetToken r) r2) (users w2) u2 Hu2)
    as [x [Hfind Hx]].
  - apply reset_cond. reflexivity.
  - exists x. split.
    + unfold UserService.findByPasswordResetToken, User_findOne, bind, get_users, ret.
      rewrite Hfind. reflexivity.
    + apply reset_cond. exact Hx.
Qed.

(** [second_request_overwrites_secret] for two requests of the one user:
    the secret of the first request is no longer found. *)
Lemma second_request_overwrites_secret_witness :
  UserService.findByPasswordResetToken "2a2a2a2a2a2a2a2a"
    (snd (UserService.passwordResetRequest (fun _ => x2b) true "user1@mail.com"
            (snd (UserService.passwordResetRequest (fun _ => x2a) true
                    "user1@mail.com" oneActiveUser))))
  = (Ok None,
     snd (UserService.passwordResetRequest (fun _ => x2b) true "user1@mail.com"
            (snd (UserService.passwordResetRequest (fun _ => x2a) true
                    "user1@mail.com" oneActiveUser)))).
Proof.
  destruct (second_request_overwrites_secret sample_hash oneActiveUser
              (fun _ => x2a) (fun _ => x2b) true true "user1@mail.com"
              (User.mk 1 "user1" "user1@mail.com" "hash" None None None false))
    as [_ [_ [_ [H _]]]].
  - reflexivity.
  - vm_compute. discriminate.
  - simpl. intros x [<- | []] Hne. exfalso. apply Hne. reflexivity.
  - exact H.
Defined.

(** ** Profile update: what it keeps *)

(** What [updateUser] does to the tables: nothing, or the save of a row that
    keeps the key, the address, the activation secret and the activation
    state of a row of the table. *)
Lemma updateUser_store (w : World) (rnd : nat -> byte)
    (unlinkFault writeFault : option exn) (id : Z) (body : UserQueries.Update) :
  tokens (snd (UserQueries.updateUser rnd unlinkFault writeFault id body w)) = tokens w
  /\ nextUserId (snd (UserQueries.updateUser rnd unlinkFault writeFault id body w))
     = nextUserId w
  /\ nextTokenId (snd (UserQueries.updateUser rnd unlinkFault writeFault id body w))
     = nextTokenId w
  /\ (users (snd (UserQueries.updateUser rnd unlinkFault writeFault id body w)) = users w
      \/ exists u u',
           In u (users w) /\ User.id u' = User.id u /\ User.email u' = User.email u
           /\ User.activationToken u' = User.activationToken u
           /\ User.inactive u' = User.inactive u
           /\ users (snd (UserQueries.updateUser rnd unlinkFault writeFault id body w))
              = users (saved_user u' w)).
Proof.
  unfold UserQueries.updateUser, UserQueries.saveProfileImage,
    UserQueries.deleteProfileImage, User_findOne, bind, get_users, ret, throw.
  remember (randomString rnd 32) as fileName eqn:Hname. clear Hname.
  destruct (find (fun r => User.id r =? id) (users w)) as [u|] eqn:E.
  - apply find_some in E. destruct E as [Hu _].
    destruct (UserQueries.update_image body) as [img|] eqn:Himg;
      [destruct (truthy (Some img)) eqn:T;
       [destruct (truthy (User.image (UserQueries.set_username
                                        (UserQueries.update_username body) u))) eqn:T2;
        [destruct unlinkFault as [e1|]|]; destruct writeFault as [e2|]|]|];
      cbn; (split; [reflexivity|]); (split; [reflexivity|]); (split; [reflexivity|]);
      first [left; reflexivity
            | right;
              match goal with
              | |- exists _ _, _ /\ _ /\ _ /\ _ /\ _
                               /\ map (fun r => if _ then ?u' else r) _ = _ =>
                  exists u, u'; repeat split; exact Hu
              end].
  - cbn. auto.
Qed.

(** ** The invariant of the user table *)

Lemma users_ok_saved (u : User.t) (w : World) :
  users_ok w -> user_ok u -> users_ok (saved_user u w).
Proof.
  intros Hw Hu x Hx. apply (in_saved User.id u) in Hx.
  destruct Hx as [[-> _] | [Hx _]]; [exact Hu | exact (Hw x Hx)].
Qed.

Lemma users_ok_same_users (w w' : World) :
  users w' = users w -> users_ok w -> users_ok w'.
Proof. unfold users_ok. intros ->. auto. Qed.

Section Invariant.

Variable bcrypt_hash : string -> string -> string.

Lemma save_users_ok (salt : string) (rnd : nat -> byte) (delivered : bool)
    (body : UserService.Body) (w : World) :
  users_ok w -> users_ok (snd (UserService.save bcrypt_hash salt rnd delivered body w)).
Proof.
  intros Hw. rewrite save_run.
  destruct (email_in_use _ w); [exact Hw|]. destruct delivered; [|exact Hw].
  intros u Hu. cbn in Hu. apply in_app_or in Hu. destruct Hu as [Hu | [<- | []]].
  - exact (Hw u Hu).
  - intros Hactive. discriminate Hactive.
Qed.

Lemma activate_users_ok (s : string) (w : World) :
  users_ok w -> users_ok (snd (UserService.activate s w)).
Proof.
  intros Hw. unfold UserService.activate, User_findOne, bind, get_users, ret.
  destruct (find _ (users w)) as [u|]; [|exact Hw].
  apply (users_ok_same_users (saved_user (activated u) w)); [reflexivity|].
  apply users_ok_saved; [exact Hw|]. intros _. reflexivity.
Qed.

Lemma passwordResetRequest_users_ok (rnd : nat -> byte) (delivered : bool)
    (email : string) (w : World) :
  users_ok w -> users_ok (snd (UserService.passwordResetRequest rnd delivered email w)).
Proof.
  intros Hw.
  destruct (find (fun r => String.eqb (User.email r) email) (users w)) as [u|] eqn:E.
  - rewrite (passwordResetRequest_known w rnd delivered email u).
    + apply (users_ok_same_users
               (saved_user (with_reset_secret (randomString rnd 16) u) w));
        [reflexivity|].
      apply users_ok_saved; [exact Hw|].
      apply find_some in E. exact (Hw u (proj1 E)).
    + unfold UserService.findByEmail, User_findOne, bind, get_users, ret.
      rewrite E. reflexivity.
  - unfold UserService.passwordResetRequest, UserService.findByEmail, User_findOne,
      bind, get_users, ret.
    rewrite E. exact Hw.
Qed.

Lemma updatePassword_users_ok (salt s password : string) (w : World) :
  users_ok w -> users_ok (snd (UserService.updatePassword bcrypt_hash salt s password w)).
Proof.
  intros Hw.
  unfold UserService.updatePassword, UserService.findByPasswordResetToken,
    User_findOne, bind, get_users, ret.
  destruct (find _ (users w)) as [u|]; [|exact Hw].
  apply (users_ok_same_users
           (saved_user (with_new_password bcrypt_hash salt password u) w));
    [reflexivity|].
  apply users_ok_saved; [exact Hw|]. intros _. reflexivity.
Qed.

Lemma deleteUser_users_ok (id : Z) (w : World) :
  users_ok w -> users_ok (snd (UserService.deleteUser id w)).
Proof.
  intros Hw u Hu. cbn in Hu. apply filter_In in Hu. exact (Hw u (proj1 Hu)).
Qed.

(** The token service does not write to the user table. *)
Lemma token_requests_keep_users (w : World) :
  (forall rnd now user, users (snd (TokenService.createToken rnd now user w)) = users w)
  /\ (forall now0 now1 token, users (snd (TokenService.verify now0 now1 token w)) = users w)
  /\ (forall token, users (snd (TokenService.deleteToken token w)) = users w)
  /\ (forall userId, users (snd (TokenService.clearTokens userId w)) = users w)
  /\ (forall now fault, users (snd (TokenService.cleanup now fault w)) = users w).
Proof.
  repeat split; intros; try reflexivity.
  - unfold TokenService.createToken, bind, Token_create, ret.
    destruct (existsb _ (users w)); reflexivity.
  - unfold TokenService.verify, Token_findOne, bind, get_tokens, ret.
    destruct (find _ (tokens w)); reflexivity.
  - destruct fault; reflexivity.
Qed.

Lemma updateUser_users_ok (rnd : nat -> byte) (unlinkFault writeFault : option exn)
    (id : Z) (body : UserQueries.Update) (w : World) :
  users_ok w ->
  users_ok (snd (UserQueries.updateUser rnd unlinkFault writeFault id body w)).
Proof.
  intros Hw.
  destruct (updateUser_store w rnd unlinkFault writeFault id body)
    as [_ [_ [_ [Husers | [u [u' [Hu [_ [_ [Hsecret [Hstate Husers]]]]]]]]]]].
  - exact (users_ok_same_users w _ Husers Hw).
  - apply (users_ok_same_users (saved_user u' w)); [exact Husers|].
    apply users_ok_saved; [exact Hw|].
    unfold user_ok. rewrite Hsecret, Hstate. exact (Hw u Hu).
Qed.

Lemma exec_users_ok (q : Request) (w : World) :
  users_ok w -> users_ok (exec bcrypt_hash q w).
Proof.
  intros Hw. destruct (token_requests_keep_users w) as [Hc [Hv [Hd [Hcl Hsw]]]].
  destruct q; cbn [exec].
  - apply save_users_ok; exact Hw.
  - apply activate_users_ok; exact Hw.
  - apply passwordResetRequest_users_ok; exact Hw.
  - apply updatePassword_users_ok; exact Hw.
  - apply deleteUser_users_ok; exact Hw.
  - apply updateUser_users_ok; exact Hw.
  - exact (users_ok_same_users w _ (Hc rnd now user) Hw).
  - exact (users_ok_same_users w _ (Hv now0 now1 token) Hw).
  - exact (users_ok_same_users w _ (Hd token) Hw).
  - exact (users_ok_same_users w _ (Hcl userId) Hw).
  - exact (users_ok_same_users w _ (Hsw now fault) Hw).
Qed.

(** C8: in every store that the core operations (those of the two
    services, the profile update included) produce from the empty store, a
    user row with [inactive] false has no activation secret; and every core
    operation keeps this true of the whole user table: [save]
    adds only inactive rows, and the rows that [activate] and
    [updatePassword] save with [inactive] false have the activation secret
    cleared. *)
Theorem active_user_has_no_activation_secret :
  (forall w, Reachable bcrypt_hash w ->
     forall u, In u (users w) -> User.inactive u = false -> User.activationToken u = None)
  /\ (forall q w, users_ok w -> users_ok (exec bcrypt_hash q w))
  /\ (forall salt rnd body w u,
        In u (users (snd (UserService.save bcrypt_hash salt rnd true body w))) ->
        In u (users w) \/ User.inactive u = true)
  /\ (forall u, User.inactive (activated u) = false
                /\ User.activationToken (activated u) = None)
  /\ (forall salt password u,
        User.inactive (with_new_password bcrypt_hash salt password u) = false
        /\ User.activationToken (with_new_password bcrypt_hash salt password u) = None).
Proof.
  split; [|split; [|split; [|split]]].
  - intros w Hreach. induction Hreach as [|q w Hreach IH].
    + intros u [].
    + apply exec_users_ok. exact IH.
  - apply exec_users_ok.
  - intros salt rnd body w u. rewrite save_run.
    destruct (email_in_use _ w); cbn [snd users]; [auto|].
    intros Hu. apply in_app_or in Hu. destruct Hu as [Hu | [<- | []]]; auto.
  - intros u. split; reflexivity.
  - intros salt password u. split; reflexivity.
Qed.

End Invariant.

(** [active_user_has_no_activation_secret] on the store after a registration
    and the activation of the registered user. *)
Lemma active_user_has_no_activation_secret_witness :
  Reachable sample_hash
    (exec sample_hash (ReqActivate "2a2a2a2a2a2a2a2a")
       (exec sample_hash
          (ReqSave "salt" (fun _ => x2a) true
             (UserService.mkBody "user1" "user1@mail.com" "P4ssword"))
          emptyWorld))
  /\ users (exec sample_hash (ReqActivate "2a2a2a2a2a2a2a2a")
              (exec sample_hash
                 (ReqSave "salt" (fun _ => x2a) true
                    (UserService.mkBody "user1" "user1@mail.com" "P4ssword"))
                 emptyWorld))
     = [User.mk 1 "user1" "user1@mail.com" "$2b$10$saltP4ssword" None None None false]
  /\ User.activationToken
       (User.mk 1 "user1" "user1@mail.com" "$2b$10$saltP4ssword" None None None false)
     = None.
Proof.
  assert (Hreach : Reachable sample_hash
            (exec sample_hash (ReqActivate "2a2a2a2a2a2a2a2a")
               (exec sample_hash
                  (ReqSave "salt" (fun _ => x2a) true
                     (UserService.mkBody "user1" "user1@mail.com" "P4ssword"))
                  emptyWorld))).
  { apply Reachable_exec. apply Reachable_exec. apply Reachable_empty. }
  split; [exact Hreach|]. split; [reflexivity|].
  apply (proj1 (active_user_has_no_activation_secret sample_hash) _ Hreach).
  - left. reflexivity.
  - reflexivity.
Defined.

(** * Further properties *)

(** ** Random strings are hexadecimal *)

Lemma hexDigit_hex (k : nat) : (k < 16)%nat -> hex_char (hexDigit k) = true.
Proof.
  intros Hk. do 16 (destruct k as [|k]; [reflexivity|]). lia.
Qed.

Lemma toHex_all_hex (bs : list byte) : all_hex (toHex bs).
Proof.
  unfold all_hex. induction bs as [|b bs IH]; cbn [toHex list_ascii_of_string].
  - constructor.
  - constructor; [|constructor; [|exact IH]].
    + apply hexDigit_hex. apply Nat.Div0.div_lt_upper_bound.
      pose proof (Byte.to_nat_bounded b). lia.
    + apply hexDigit_hex. apply Nat.mod_upper_bound. lia.
Qed.

Lemma substring_prefix_all (P : ascii -> Prop) (s : string) (n : nat) :
  Forall P (list_ascii_of_string s) ->
  Forall P (list_ascii_of_string (substring 0 n s)).
Proof.
  revert n. induction s as [|c s IH]; intros n H; destruct n; simpl;
    try constructor.
  - inversion H; assumption.
  - apply IH. inversion H; assumption.
Qed.

Lemma randomString_all_hex (rnd : nat -> byte) (n : nat) :
  all_hex (randomString rnd n).
Proof.
  unfold randomString, all_hex. apply substring_prefix_all. apply toHex_all_hex.
Qed.

(** X1: [randomString(length)] is a string of exactly [length] characters,
    each of them a lower-case hexadecimal digit. *)
Theorem randomString_hex (rnd : nat -> byte) (n : nat) :
  String.length (randomString rnd n) = n /\ all_hex (randomString rnd n).
Proof.
  split; [apply randomString_length | apply randomString_all_hex].
Qed.

(** ** Pagination and listing *)

Lemma pagination_facts (pageAsNumber sizeAsNumber : option Z) :
  0 <= fst (pagination pageAsNumber sizeAsNumber)
  /\ 1 <= snd (pagination pageAsNumber sizeAsNumber) <= 20.
Proof.
  unfold pagination.
  destruct pageAsNumber as [p|], sizeAsNumber as [s|]; cbn [fst snd];
    repeat match goal with
           | |- context [?a <? ?b] => destruct (Z.ltb_spec a b)
           end;
    cbn; lia.
Qed.

(** X2: the page and size that [pagination] hands on are a page that is not
    negative and a size between 1 and 20; a parameter inside these bounds is
    kept, a missing or negative page becomes 0, a missing size or one outside
    the bounds becomes 10. *)
Theorem pagination_bounds (pageAsNumber sizeAsNumber : option Z) :
  0 <= fst (pagination pageAsNumber sizeAsNumber)
  /\ 1 <= snd (pagination pageAsNumber sizeAsNumber) <= 20
  /\ (forall n, pageAsNumber = Some n ->
        fst (pagination pageAsNumber sizeAsNumber) = (if n <? 0 then 0 else n))
  /\ (pageAsNumber = None -> fst (pagination pageAsNumber sizeAsNumber) = 0)
  /\ (forall n, sizeAsNumber = Some n -> 1 <= n <= 20 ->
        snd (pagination pageAsNumber sizeAsNumber) = n)
  /\ (forall n, sizeAsNumber = Some n -> n < 1 \/ 20 < n ->
        snd (pagination pageAsNumber sizeAsNumber) = 10)
  /\ (sizeAsNumber = None -> snd (pagination pageAsNumber sizeAsNumber) = 10).
Proof.
  unfold pagination.
  destruct pageAsNumber as [p|], sizeAsNumber as [s|]; cbn [fst snd];
    repeat split; intros;
    repeat match goal with
           | H : Some _ = Some _ |- _ => injection H as H; subst
           | H : None = Some _ |- _ => discriminate H
           | H : Some _ = None |- _ => discriminate H
           end;
    repeat match goal with
           | |- context [?a <? ?b] => destruct (Z.ltb_spec a b)
           end;
    cbn; lia.
Qed.

Lemma ceil_div_spec (count size : Z) :
  1 <= size ->
  (ceil_div count size - 1) * size < count <= ceil_div count size * size.
Proof.
  intros Hsize. unfold ceil_div.
  pose proof (Z.div_mod (- count) size) as Hdiv.
  pose proof (Z.mod_pos_bound (- count) size) as Hmod.
  specialize (Hdiv ltac:(lia)). specialize (Hmod ltac:(lia)).
  set (q := - count / size) in *. set (r := (- count) mod size) in *.
  nia.
Qed.

(** The test of [User_findAndCountAll] on what it hands to the store. *)
Lemma within_int64 (limit offset count : Z) :
  (MAX_INT64 <? limit) || (MAX_INT64 <? offset) || (MAX_INT64 <? count) = false
  <-> limit <= MAX_INT64 /\ offset <= MAX_INT64 /\ count <= MAX_INT64.
Proof.
  rewrite !orb_false_iff, !Z.ltb_ge. tauto.
Qed.

(** The run of [getUsers] within the integers of the store: it reads the
    store and writes nothing. *)
Lemma getUsers_run (w : World) (page size : Z)
    (authenticatedUser : option TokenService.AuthenticatedUser) :
  size <= MAX_INT64 -> page * size <= MAX_INT64 ->
  Z.of_nat (List.length (visible authenticatedUser w)) <= MAX_INT64 ->
  UserQueries.getUsers page size authenticatedUser w
  = (Ok (UserQueries.mkPage
           (map attributes
                (firstn (Z.to_nat size)
                        (skipn (Z.to_nat (page * size)) (visible authenticatedUser w))))
           page size
           (ceil_div (Z.of_nat (List.length (visible authenticatedUser w))) size)),
     w).
Proof.
  intros Hsize Hoffset Hcount.
  pose proof (proj2 (within_int64 size (page * size) _)
                (conj Hsize (conj Hoffset Hcount))) as Htest.
  unfold UserQueries.getUsers, User_findAndCountAll, bind, get_users, ret.
  unfold visible in Htest. rewrite Htest. reflexivity.
Qed.

(** The run of [getUsers] beyond them: the error of the store escapes. *)
Lemma getUsers_refused (w : World) (page size : Z)
    (authenticatedUser : option TokenService.AuthenticatedUser) :
  MAX_INT64 < size \/ MAX_INT64 < page * size
  \/ MAX_INT64 < Z.of_nat (List.length (visible authenticatedUser w)) ->
  UserQueries.getUsers page size authenticatedUser w = (Throw SequelizeDatabaseError, w).
Proof.
  intros Hbeyond.
  unfold UserQueries.getUsers, User_findAndCountAll, bind, get_users, ret, throw.
  fold (visible authenticatedUser w).
  destruct ((MAX_INT64 <? size) || (MAX_INT64 <? page * size)
            || (MAX_INT64 <? Z.of_nat (List.length (visible authenticatedUser w))))
    eqn:Htest; [reflexivity|].
  apply within_int64 in Htest. lia.
Qed.

(** A page that [getUsers] returned was within the integers of the store. *)
Lemma getUsers_returned (w : World) (page size : Z)
    (authenticatedUser : option TokenService.AuthenticatedUser) (pg : UserQueries.Page) :
  fst (UserQueries.getUsers page size authenticatedUser w) = Ok pg ->
  size <= MAX_INT64 /\ page * size <= MAX_INT64
  /\ Z.of_nat (List.length (visible authenticatedUser w)) <= MAX_INT64.
Proof.
  intros Hok.
  destruct (Z.le_gt_cases size MAX_INT64) as [Hsize|Hsize];
    [|rewrite getUsers_refused in Hok by lia; discriminate].
  destruct (Z.le_gt_cases (page * size) MAX_INT64) as [Hoffset|Hoffset];
    [|rewrite getUsers_refused in Hok by lia; discriminate].
  destruct (Z.le_gt_cases (Z.of_nat (List.length (visible authenticatedUser w))) MAX_INT64)
    as [Hcount|Hcount];
    [|rewrite getUsers_refused in Hok by lia; discriminate].
  auto.
Qed.

Lemma in_firstn {A : Type} (n : nat) (l : list A) (x : A) :
  In x (firstn n l) -> In x l.
Proof.
  intros H. rewrite <- (firstn_skipn n l). apply in_or_app. left. exact H.
Qed.

Lemma in_skipn {A : Type} (n : nat) (l : list A) (x : A) :
  In x (skipn n l) -> In x l.
Proof.
  intros H. rewrite <- (firstn_skipn n l). apply in_or_app. right. exact H.
Qed.

Lemma visible_In (authenticatedUser : option TokenService.AuthenticatedUser)
    (w : World) (u : User.t) :
  In u (visible authenticatedUser w) ->
  In u (users w) /\ User.inactive u = false
  /\ (forall a i, authenticatedUser = Some a -> TokenService.auth_id a = Some i ->
                  User.id u <> i).
Proof.
  unfold visible, UserQueries.listed. rewrite filter_In, andb_true_iff, negb_true_iff.
  intros [Hin [Hactive Hother]]. split; [exact Hin|]. split; [exact Hactive|].
  intros a i -> Hi. rewrite Hi in Hother.
  apply negb_true_iff, Z.eqb_neq in Hother. exact Hother.
Qed.

(** X3: [getUsers], for a page that is not negative and a size of at least 1,
    on a table within the row limit of the store.  When the size and
    [page * size] are safe integers, it returns, without writing to the store,
    at most [size] entries, each the projection of an active user other than
    the authenticated one; the number of entries is what is left of the
    visible users after [page * size] of them, capped at [size]; and
    [totalPages] is the least number of pages of this size that hold all
    visible users.  When [page * size] is beyond the integers of the store,
    the store rejects the query: the error escapes [getUsers] and nothing is
    written. *)
Theorem getUsers_spec (w : World) (page size : Z)
    (authenticatedUser : option TokenService.AuthenticatedUser) :
  0 <= page -> 1 <= size ->
  Z.of_nat (List.length (visible authenticatedUser w)) <= MAX_INT64 ->
  (size <= MAX_SAFE_INTEGER -> page * size <= MAX_SAFE_INTEGER ->
   exists pg,
     UserQueries.getUsers page size authenticatedUser w = (Ok pg, w)
     /\ UserQueries.page pg = page /\ UserQueries.size pg = size
     /\ Z.of_nat (List.length (UserQueries.content pg)) <= size
     /\ Z.of_nat (List.length (UserQueries.content pg))
        = Z.min size
            (Z.max 0 (Z.of_nat (List.length (visible authenticatedUser w)) - page * size))
     /\ (forall v, In v (UserQueries.content pg) ->
           exists u, In u (users w) /\ v = attributes u /\ User.inactive u = false
                     /\ (forall a i, authenticatedUser = Some a ->
                                     TokenService.auth_id a = Some i -> User.id u <> i))
     /\ (UserQueries.totalPages pg - 1) * size
        < Z.of_nat (List.length (visible authenticatedUser w))
        <= UserQueries.totalPages pg * size)
  /\ (MAX_INT64 < page * size ->
      UserQueries.getUsers page size authenticatedUser w
      = (Throw SequelizeDatabaseError, w)).
Proof.
  intros Hpage Hsize Hcount. split.
  - intros Hsafe Hoffset. unfold MAX_SAFE_INTEGER in Hsafe, Hoffset.
    eexists. split; [apply getUsers_run; unfold MAX_INT64 in *; lia|].
    cbn [UserQueries.page UserQueries.size UserQueries.content UserQueries.totalPages].
    assert (Hlen : Z.of_nat (List.length
                     (map attributes
                        (firstn (Z.to_nat size)
                           (skipn (Z.to_nat (page * size)) (visible authenticatedUser w)))))
                   = Z.min size
                       (Z.max 0 (Z.of_nat (List.length (visible authenticatedUser w))
                                 - page * size))).
    { rewrite length_map, length_firstn, length_skipn. nia. }
    split; [reflexivity|]. split; [reflexivity|]. split; [rewrite Hlen; lia|].
    split; [exact Hlen|]. split.
    + intros v Hv. apply in_map_iff in Hv. destruct Hv as [u [<- Hu]].
      apply in_firstn, in_skipn in Hu.
      apply visible_In in Hu. destruct Hu as [Hin [Hactive Hother]].
      exists u. auto.
    + apply ceil_div_spec. exact Hsize.
  - intros Hbeyond. apply getUsers_refused. right. left. exact Hbeyond.
Qed.

(** [getUsers_spec] on the store with an inactive and an active user: the
    first page of ten, and page [10^18] of ten. *)
Lemma getUsers_spec_witness :
  (exists pg,
     UserQueries.getUsers 0 10 None resetPending = (Ok pg, resetPending)
     /\ UserQueries.content pg = [mkUserView 2 "user2" "user2@mail.com" None]
     /\ UserQueries.totalPages pg = 1)
  /\ UserQueries.getUsers 1000000000000000000 10 None resetPending
     = (Throw SequelizeDatabaseError, resetPending).
Proof.
  split.
  - destruct (getUsers_spec resetPending 0 10 None) as [Hin _];
      [lia | lia | vm_compute; discriminate |].
    destruct Hin as [pg [E _]]; [vm_compute; discriminate | vm_compute; discriminate |].
    exists pg. split; [exact E|].
    vm_compute in E. injection E as <-. split; reflexivity.
  - destruct (getUsers_spec resetPending 1000000000000000000 10 None) as [_ Hout];
      [lia | lia | vm_compute; discriminate |].
    apply Hout. reflexivity.
Defined.

Lemma firstn_add {A : Type} (a b : nat) (l : list A) :
  firstn (a + b) l = firstn a l ++ firstn b (skipn a l).
Proof.
  revert l. induction a as [|a IH]; intros l; simpl.
  - reflexivity.
  - destruct l as [|x l]; simpl.
    + rewrite firstn_nil. reflexivity.
    + rewrite IH. reflexivity.
Qed.

Lemma concat_pages {A : Type} (l : list A) (n k : nat) :
  List.concat (map (fun p => firstn n (skipn (p * n) l)) (seq 0 k)) = firstn (k * n) l.
Proof.
  induction k as [|k IH].
  - reflexivity.
  - rewrite seq_S, map_app, concat_app, IH. cbn [map List.concat Nat.add].
    rewrite app_nil_r. replace (S k * n)%nat with (k * n + n)%nat by lia.
    symmetry. apply firstn_add.
Qed.

(** X4: the pages of a listing cover the visible users exactly: for a size of
    at least 1, the entries of the pages [0 .. totalPages - 1], one after the
    other, are the projections of the visible users in table order, each as
    often as it is in the table. *)
Theorem getUsers_pages_cover (w : World) (size : Z)
    (authenticatedUser : option TokenService.AuthenticatedUser)
    (first : UserQueries.Page) :
  1 <= size ->
  fst (UserQueries.getUsers 0 size authenticatedUser w) = Ok first ->
  List.concat (map (fun p => content_of
                          (UserQueries.getUsers (Z.of_nat p) size authenticatedUser w))
              (seq 0 (Z.to_nat (UserQueries.totalPages first))))
  = map attributes (visible authenticatedUser w).
Proof.
  intros Hsize Hfirst.
  destruct (getUsers_returned _ _ _ _ _ Hfirst) as [Hlimit [_ Hcount]].
  rewrite getUsers_run in Hfirst by (unfold MAX_INT64 in *; lia). cbn [fst] in Hfirst.
  injection Hfirst as <-. cbn [UserQueries.totalPages].
  set (vis := visible authenticatedUser w) in *.
  set (total := ceil_div (Z.of_nat (List.length vis)) size).
  pose proof (ceil_div_spec (Z.of_nat (List.length vis)) size Hsize) as Htotal.
  fold total in Htotal.
  rewrite (map_ext_in _ (fun p => map attributes
                                    (firstn (Z.to_nat size) (skipn (p * Z.to_nat size) vis)))).
  - rewrite <- (map_map (fun p => firstn (Z.to_nat size) (skipn (p * Z.to_nat size) vis))
                        (map attributes)).
    rewrite <- concat_map, concat_pages. f_equal.
    apply firstn_all2. nia.
  - intros p Hp. apply in_seq in Hp.
    rewrite getUsers_run by (fold vis; nia). unfold content_of.
    cbn [fst UserQueries.content]. fold vis.
    rewrite Z2Nat.inj_mul, Nat2Z.id by lia. reflexivity.
Qed.

(** [getUsers_pages_cover] for three users in pages of two: a full page and
    a page with the one user left. *)
Lemma getUsers_pages_cover_witness :
  List.concat (map (fun p => content_of
                          (UserQueries.getUsers (Z.of_nat p) 2 None threeActiveUsers))
              (seq 0 2))
  = [mkUserView 1 "user1" "user1@mail.com" None;
     mkUserView 2 "user2" "user2@mail.com" None;
     mkUserView 3 "user3" "user3@mail.com" None].
Proof.
  exact (getUsers_pages_cover threeActiveUsers 2 None
           (UserQueries.mkPage [mkUserView 1 "user1" "user1@mail.com" None;
                                mkUserView 2 "user2" "user2@mail.com" None] 0 2 2)
           ltac:(lia) eq_refl).
Defined.

(** X5: the listing route, on a table within the row limit of the store.
    The middleware hands [getUsers] a page that is not negative and a size
    between 1 and 20, whatever the query parameters.  When the product of the
    two is a safe integer, the route writes nothing and answers with that
    page number and size and at most that many entries, none of them an
    inactive user.  When the product is beyond the integers of the store (a
    page parameter of [10^18] with the default size), the error of the store
    escapes the handler, which does not catch it, and nothing is written. *)
Theorem getUsersRoute_spec (w : World) (pageAsNumber sizeAsNumber : option Z)
    (authenticatedUser : option TokenService.AuthenticatedUser) :
  Z.of_nat (List.length (visible authenticatedUser w)) <= MAX_INT64 ->
  let page := fst (pagination pageAsNumber sizeAsNumber) in
  let size := snd (pagination pageAsNumber sizeAsNumber) in
  0 <= page /\ 1 <= size <= 20
  /\ (page * size <= MAX_SAFE_INTEGER ->
      exists pg,
        getUsersRoute pageAsNumber sizeAsNumber authenticatedUser w = (Ok pg, w)
        /\ UserQueries.page pg = page
        /\ UserQueries.size pg = size
        /\ Z.of_nat (List.length (UserQueries.content pg)) <= size
        /\ (forall v, In v (UserQueries.content pg) ->
              exists u, In u (users w) /\ v = attributes u /\ User.inactive u = false))
  /\ (MAX_INT64 < page * size ->
      getUsersRoute pageAsNumber sizeAsNumber authenticatedUser w
      = (Throw SequelizeDatabaseError, w)).
Proof.
  intros Hcount page size. unfold getUsersRoute. fold page size.
  destruct (pagination_facts pageAsNumber sizeAsNumber) as [Hpage Hsize].
  fold page in Hpage. fold size in Hsize.
  split; [exact Hpage|]. split; [exact Hsize|]. split.
  - intros Hsafe. unfold MAX_SAFE_INTEGER in Hsafe.
    eexists. split; [apply getUsers_run; unfold MAX_INT64 in *; lia|].
    cbn [UserQueries.page UserQueries.size UserQueries.content].
    split; [reflexivity|]. split; [reflexivity|]. split.
    + rewrite length_map, length_firstn. lia.
    + intros v Hv. apply in_map_iff in Hv. destruct Hv as [u [<- Hu]].
      apply in_firstn, in_skipn in Hu.
      apply visible_In in Hu. destruct Hu as [Hin [Hactive _]].
      exists u. auto.
  - intros Hbeyond. apply getUsers_refused. right. left. exact Hbeyond.
Qed.

(** [getUsersRoute_spec] on the store with an inactive and an active user:
    without query parameters, and with a page parameter of [10^18]. *)
Lemma getUsersRoute_spec_witness :
  (exists pg,
     getUsersRoute None None None resetPending = (Ok pg, resetPending)
     /\ UserQueries.content pg = [mkUserView 2 "user2" "user2@mail.com" None])
  /\ getUsersRoute (Some 1000000000000000000) None None resetPending
     = (Throw SequelizeDatabaseError, resetPending).
Proof.
  split.
  - destruct (getUsersRoute_spec resetPending None None None) as [_ [_ [Hin _]]];
      [vm_compute; discriminate |].
    destruct Hin as [pg [E _]]; [vm_compute; discriminate |].
    exists pg. split; [exact E|].
    vm_compute in E. injection E as <-. reflexivity.
  - destruct (getUsersRoute_spec resetPending (Some 1000000000000000000) None None)
      as [_ [_ [_ Hout]]]; [vm_compute; discriminate |].
    apply Hout. reflexivity.
Defined.

(** [getUser] when no active row has the id. *)
Lemma getUser_miss (w : World) (id : Z) :
  (forall u, In u (users w) -> User.id u = id -> User.inactive u = true) ->
  UserQueries.getUser id w = (Throw (NotFoundException "user_not_found"), w).
Proof.
  intros Hnone. unfold UserQueries.getUser, User_findOne, bind, get_users, ret, throw.
  replace (find _ (users w)) with (@None User.t); [reflexivity|].
  symmetry. apply find_none_iff. intros u Hu.
  destruct (Z.eqb_spec (User.id u) id) as [E|E]; [|reflexivity].
  rewrite (Hnone u Hu E). reflexivity.
Qed.

(** X6: [getUser] answers with the projection of the active row of that id
    if there is one, and throws [NotFoundException] when the id is unknown or
    belongs only to inactive users; it never writes to the store. *)
Theorem getUser_spec (w : World) (id : Z) :
  ((forall u, In u (users w) -> User.id u = id -> User.inactive u = true) ->
   UserQueries.getUser id w = (Throw (NotFoundException "user_not_found"), w))
  /\ (forall u, In u (users w) -> User.id u = id -> User.inactive u = false ->
        exists u', In u' (users w) /\ User.id u' = id /\ User.inactive u' = false
                   /\ UserQueries.getUser id w = (Ok (attributes u'), w))
  /\ snd (UserQueries.getUser id w) = w.
Proof.
  split; [apply getUser_miss|].
  unfold UserQueries.getUser, User_findOne, bind, get_users, ret, throw.
  split.
  - intros u Hu Hid Hactive.
    destruct (find_finds (fun r => (User.id r =? id) && negb (User.inactive r))
                (users w) u Hu) as [u' [Hfind Hu']].
    + rewrite Hid, Z.eqb_refl, Hactive. reflexivity.
    + apply andb_true_iff in Hu'. destruct Hu' as [Hid' Hactive'].
      apply Z.eqb_eq in Hid'. apply negb_true_iff in Hactive'.
      exists u'. rewrite Hfind. apply find_some in Hfind. tauto.
  - destruct (find _ (users w)); reflexivity.
Qed.

(** [getUser_spec] for the active and for the inactive user of the store. *)
Lemma getUser_spec_witness :
  UserQueries.getUser 1 resetPending
  = (Throw (NotFoundException "user_not_found"), resetPending)
  /\ exists u', UserQueries.getUser 2 resetPending = (Ok (attributes u'), resetPending).
Proof.
  destruct (getUser_spec resetPending 1) as [Hmiss _].
  destruct (getUser_spec resetPending 2) as [_ [Hhit _]].
  split.
  - apply Hmiss. simpl. intros u [<- | [<- | []]] Hid; [reflexivity | discriminate Hid].
  - destruct (Hhit (User.mk 2 "user2" "user2@mail.com" "hash2" None None None false))
      as [u' [_ [_ [_ E]]]].
    + simpl. right. left. reflexivity.
    + reflexivity.
    + reflexivity.
    + exists u'. exact E.
Defined.

(** ** Revocation *)

(** What [verify] returns is decided by the lookup alone. *)
Lemma verify_result (w : World) (s : string) (now0 now1 : Z) :
  fst (TokenService.verify now0 now1 s w)
  = match find (fun r => col_eqb (Token.token r) s
                         && (now0 - 7 * 24 * 60 * 60 * 1000 <? Token.lastUsedAt r))
               (tokens w) with
    | Some r => Ok (TokenService.mkAuthenticatedUser (Token.userId r))
    | None => Throw TypeError
    end.
Proof.
  unfold TokenService.verify, Token_findOne, bind, get_tokens, ret.
  destruct (find _ (tokens w)); reflexivity.
Qed.

(** The store after a [destroy] of the token rows that satisfy [cond]. *)
Lemma Token_destroy_run (w : World) (cond : Token.t -> bool) :
  Token_destroy None cond w
  = (Ok tt,
     mkWorld (users w) (filter (fun r => negb (cond r)) (tokens w))
             (nextUserId w) (nextTokenId w)
             (journal w ++ [ETokenDestroy (filter cond (tokens w))])).
Proof. reflexivity. Qed.

Lemma filter_idem {A : Type} (f : A -> bool) (l : list A) :
  filter f (filter f l) = filter f l.
Proof.
  induction l as [|a l IH]; simpl; [reflexivity|].
  destruct (f a) eqn:E; simpl; [rewrite E, IH|]; auto.
Qed.

(** X7: [deleteToken] returns whether or not the token exists; it removes
    exactly the rows that carry the string and touches no user; afterwards
    [verify] on the string throws at any time, and a second [deleteToken]
    removes nothing more. *)
Theorem deleteToken_revokes (w : World) (t : string) :
  exists w',
    TokenService.deleteToken t w = (Ok tt, w')
    /\ users w' = users w
    /\ (forall r, In r (tokens w') <-> In r (tokens w) /\ ~ carries t r)
    /\ (forall now0 now1, TokenService.verify now0 now1 t w' = (Throw TypeError, w'))
    /\ tokens (snd (TokenService.deleteToken t w')) = tokens w'.
Proof.
  unfold TokenService.deleteToken. rewrite Token_destroy_run.
  eexists. split; [reflexivity|]. cbn [users tokens].
  assert (Hrows : forall r,
            In r (filter (fun r => negb (col_eqb (Token.token r) t)) (tokens w))
            <-> In r (tokens w) /\ ~ carries t r).
  { intros r. rewrite filter_In, negb_true_iff. unfold carries.
    rewrite <- col_eqb_true. destruct (col_eqb _ t); intuition congruence. }
  split; [reflexivity|]. split; [exact Hrows|]. split.
  - intros now0 now1. apply verify_miss. cbn [tokens]. intros r Hr Hc.
    apply Hrows in Hr. tauto.
  - rewrite Token_destroy_run. cbn [snd tokens]. apply filter_idem.
Qed.

(** X8: [clearTokens] removes exactly the token rows of the user and touches
    no user row; afterwards [verify] throws on every token string that only
    rows of that user carried, while the rows of the other users are still
    there. *)
Theorem clearTokens_revokes_all (w : World) (userId : Z) :
  exists w',
    TokenService.clearTokens userId w = (Ok tt, w')
    /\ users w' = users w
    /\ (forall r, In r (tokens w') <-> In r (tokens w) /\ Token.userId r <> Some userId)
    /\ (forall t now0 now1,
          (forall r, In r (tokens w) -> carries t r -> Token.userId r = Some userId) ->
          TokenService.verify now0 now1 t w' = (Throw TypeError, w')).
Proof.
  unfold TokenService.clearTokens. rewrite Token_destroy_run.
  eexists. split; [reflexivity|]. cbn [users tokens].
  assert (Hrows : forall r,
            In r (filter (fun r => negb (ref_eqb (Token.userId r) userId)) (tokens w))
            <-> In r (tokens w) /\ Token.userId r <> Some userId).
  { intros r. rewrite filter_In, negb_true_iff.
    rewrite <- ref_eqb_true. destruct (ref_eqb _ userId); intuition congruence. }
  split; [reflexivity|]. split; [exact Hrows|].
  intros t now0 now1 Hown. apply verify_miss. cbn [tokens]. intros r Hr Hc.
  apply Hrows in Hr. destruct Hr as [Hr Hne]. exfalso. exact (Hne (Hown r Hr Hc)).
Qed.

(** X9: [deleteUser] removes the rows of that id from the user table and,
    through the cascade of the association, every token row of that user; the
    other users and their tokens stay; afterwards [getUser] for the id throws
    [NotFoundException] and [verify] throws on every token string that only
    rows of that user carried. *)
Theorem deleteUser_cascades (w : World) (id : Z) :
  exists w',
    UserService.deleteUser id w = (Ok tt, w')
    /\ (forall u, In u (users w') <-> In u (users w) /\ User.id u <> id)
    /\ (forall r, In r (tokens w') <-> In r (tokens w) /\ Token.userId r <> Some id)
    /\ UserQueries.getUser id w' = (Throw (NotFoundException "user_not_found"), w')
    /\ (forall t now0 now1,
          (forall r, In r (tokens w) -> carries t r -> Token.userId r = Some id) ->
          TokenService.verify now0 now1 t w' = (Throw TypeError, w')).
Proof.
  eexists. split; [reflexivity|]. cbn [users tokens].
  assert (Husers : forall u,
            In u (filter (fun r => negb (User.id r =? id)) (users w))
            <-> In u (users w) /\ User.id u <> id).
  { intros u. rewrite filter_In, negb_true_iff, Z.eqb_neq. tauto. }
  assert (Hrows : forall r,
            In r (filter (fun r => negb (ref_eqb (Token.userId r) id)) (tokens w))
            <-> In r (tokens w) /\ Token.userId r <> Some id).
  { intros r. rewrite filter_In, negb_true_iff.
    rewrite <- ref_eqb_true. destruct (ref_eqb _ id); intuition congruence. }
  split; [exact Husers|]. split; [exact Hrows|]. split.
  - apply getUser_miss. cbn [users]. intros u Hu Hid.
    apply Husers in Hu. tauto.
  - intros t now0 now1 Hown. apply verify_miss. cbn [tokens]. intros r Hr Hc.
    apply Hrows in Hr. destruct Hr as [Hr Hne]. exfalso. exact (Hne (Hown r Hr Hc)).
Qed.

(** ** Sliding expiry *)

(** X10: validity slides with use.  After a [verify] that refreshed the one
    row of a token at time [now1], a later [verify] at time [later0] returns
    the same user when [later0 - now1 < TTL] and throws when
    [later0 - now1 >= TTL], whatever the time of last use was before. *)
Theorem verify_slides (w : World) (s : string) (r : Token.t)
    (now0 now1 later0 later1 : Z) :
  In r (tokens w) -> carries s r ->
  (forall r', In r' (tokens w) -> carries s r' -> r' = r) ->
  now0 - Token.lastUsedAt r < TTL ->
  fst (TokenService.verify now0 now1 s w)
  = Ok (TokenService.mkAuthenticatedUser (Token.userId r))
  /\ (later0 - now1 < TTL ->
      fst (TokenService.verify later0 later1 s (snd (TokenService.verify now0 now1 s w)))
      = Ok (TokenService.mkAuthenticatedUser (Token.userId r)))
  /\ (TTL <= later0 - now1 ->
      fst (TokenService.verify later0 later1 s (snd (TokenService.verify now0 now1 s w)))
      = Throw TypeError).
Proof.
  intros Hin Hc Huniq Hfresh.
  rewrite (verify_hit w s now0 now1 r Hin Hc Huniq Hfresh). cbn [fst snd].
  set (r' := Token.set_lastUsedAt now1 r).
  assert (Hrows : forall x, In x (tokens (refreshed now1 r w)) -> carries s x -> x = r').
  { intros x Hx Hcx. apply (in_saved Token.id r') in Hx.
    destruct Hx as [[-> _] | [Hx Hid]]; [reflexivity|].
    exfalso. apply Hid. rewrite (Huniq x Hx Hcx). reflexivity. }
  assert (Hin' : In r' (tokens (refreshed now1 r w))).
  { apply (in_saved Token.id r'). left. split; [reflexivity|].
    exists r. split; [exact Hin | reflexivity]. }
  split; [reflexivity|]. split.
  - intros Hsoon.
    rewrite (verify_hit (refreshed now1 r w) s later0 later1 r' Hin' Hc Hrows Hsoon).
    reflexivity.
  - intros Hlate. rewrite verify_miss; [reflexivity|].
    intros x Hx Hcx. rewrite (Hrows x Hx Hcx). exact Hlate.
Qed.

(** [verify_slides]: a token issued at 0 and used after four days is good
    ten days after the issue and refused twelve days after it. *)
Lemma verify_slides_witness :
  fst (TokenService.verify 864000000 864000000 "t0"
         (snd (TokenService.verify 345600000 345600000 "t0" oneSession)))
  = Ok (TokenService.mkAuthenticatedUser (Some 1))
  /\ fst (TokenService.verify 1036800000 1036800000 "t0"
            (snd (TokenService.verify 345600000 345600000 "t0" oneSession)))
     = Throw TypeError.
Proof.
  assert (Hin : In (Token.mk 1 (Some "t0") (Some 1) 0) (tokens oneSession))
    by (left; reflexivity).
  assert (Huniq : forall r', In r' (tokens oneSession) -> carries "t0" r' ->
                             r' = Token.mk 1 (Some "t0") (Some 1) 0)
    by (simpl; intros r' [<- | []] _; reflexivity).
  split.
  - refine (proj1 (proj2 (verify_slides oneSession "t0" _ 345600000 345600000
                            864000000 864000000 Hin eq_refl Huniq _)) _);
      unfold TTL; simpl; lia.
  - refine (proj2 (proj2 (verify_slides oneSession "t0" _ 345600000 345600000
                            1036800000 1036800000 Hin eq_refl Huniq _)) _);
      unfold TTL; simpl; lia.
Defined.

Lemma find_filter_keep {A : Type} (p keep : A -> bool) (l : list A) :
  (forall x, In x l -> p x = true -> keep x = true) ->
  find p (filter keep l) = find p l.
Proof.
  induction l as [|a l IH]; intros H; simpl; [reflexivity|].
  assert (IH' : find p (filter keep l) = find p l).
  { apply IH. intros x Hx. apply H. right. exact Hx. }
  destruct (p a) eqn:Hp.
  - rewrite (H a (or_introl eq_refl) Hp). simpl. rewrite Hp. reflexivity.
  - destruct (keep a); simpl; [rewrite Hp|]; exact IH'.
Qed.

(** X11: the sweep removes only rows that [verify] refuses anyway: what
    [verify] returns for any token string at a time not before the sweep is
    the same with and without the sweep. *)
Theorem cleanup_keeps_verify (w : World) (s : string) (sweptAt now0 now1 : Z) :
  sweptAt <= now0 ->
  fst (TokenService.verify now0 now1 s (snd (TokenService.cleanup sweptAt None w)))
  = fst (TokenService.verify now0 now1 s w).
Proof.
  intros Hlater. rewrite !verify_result.
  unfold TokenService.cleanup. rewrite Token_destroy_run. cbn [snd tokens].
  rewrite find_filter_keep; [reflexivity|].
  intros r _ Hr. apply andb_true_iff in Hr. destruct Hr as [_ Hr].
  apply Z.ltb_lt in Hr. apply negb_true_iff, Z.ltb_ge. lia.
Qed.

(** [cleanup_keeps_verify] for a sweep that removes the sessions of the
    store, all last used more than [TTL] before it, and a verification at the
    time of the sweep. *)
Lemma cleanup_keeps_verify_witness :
  fst (TokenService.verify 700000000 700000001 "t1"
         (snd (TokenService.cleanup 700000000 None resetPending)))
  = fst (TokenService.verify 700000000 700000001 "t1" resetPending)
  /\ tokens (snd (TokenService.cleanup 700000000 None resetPending)) = [].
Proof.
  split; [|reflexivity].
  apply (cleanup_keeps_verify resetPending "t1" 700000000 700000000 700000001). lia.
Defined.

Lemma find_app_miss {A : Type} (p : A -> bool) (l : list A) (a : A) :
  p a = false -> find p (l ++ [a]) = find p l.
Proof.
  intros Hp. induction l as [|x l IH]; simpl.
  - rewrite Hp. reflexivity.
  - destruct (p x); [reflexivity | exact IH].
Qed.

(** X12: [createToken] for a user of the user table returns a string of 32
    hexadecimal digits, appends one row that carries it for the user with the
    time of the issue, touches no other row, and leaves what [verify] returns
    for every other token string as it was.  For a user whose id no row of
    the user table has, the foreign key of the token table refuses the row:
    the error escapes [createToken] and the store is as it was. *)
Theorem createToken_issues (w : World) (rnd : nat -> byte) (now : Z) (user : User.t) :
  ((exists x, In x (users w) /\ User.id x = User.id user) ->
   exists t row w',
     TokenService.createToken rnd now user w = (Ok t, w')
     /\ String.length t = 32%nat /\ all_hex t
     /\ tokens w' = tokens w ++ [row]
     /\ carries t row /\ Token.userId row = Some (User.id user)
     /\ Token.lastUsedAt row = now
     /\ users w' = users w
     /\ (forall s now0 now1, s <> t ->
           fst (TokenService.verify now0 now1 s w')
           = fst (TokenService.verify now0 now1 s w)))
  /\ ((forall x, In x (users w) -> User.id x <> User.id user) ->
      TokenService.createToken rnd now user w
      = (Throw SequelizeForeignKeyConstraintError, w)).
Proof.
  split; [|apply createToken_refused].
  intros Hknown.
  exists (randomString rnd 32),
    (Token.mk (nextTokenId w) (Some (randomString rnd 32)) (Some (User.id user)) now).
  eexists. split; [apply createToken_run; exact Hknown|].
  split; [apply randomString_length|]. split; [apply randomString_all_hex|].
  cbn [tokens users]. repeat (split; [reflexivity|]).
  intros s now0 now1 Hs. rewrite !verify_result. cbn [tokens].
  rewrite find_app_miss; [reflexivity|].
  apply andb_false_iff. left. cbn [Token.token].
  destruct (col_eqb (Some (randomString rnd 32)) s) eqn:E; [|reflexivity].
  apply col_eqb_true in E. congruence.
Qed.

(** [createToken_issues] on the store with one user: a token for that user,
    and a token for a user of id 7, which the table does not have. *)
Lemma createToken_issues_witness :
  (exists t row w',
     TokenService.createToken (fun _ => x2a) 1000
       (User.mk 1 "user1" "user1@mail.com" "hash" None None None false) oneActiveUser
     = (Ok t, w')
     /\ tokens w' = tokens oneActiveUser ++ [row]
     /\ Token.userId row = Some 1)
  /\ TokenService.createToken (fun _ => x2a) 1000
       (User.mk 7 "user7" "user7@mail.com" "hash" None None None false) oneActiveUser
     = (Throw SequelizeForeignKeyConstraintError, oneActiveUser).
Proof.
  split.
  - destruct (createToken_issues oneActiveUser (fun _ => x2a) 1000
                (User.mk 1 "user1" "user1@mail.com" "hash" None None None false))
      as [Hin _].
    destruct Hin as [t [row [w' [E [_ [_ [Hrows [_ [Howner _]]]]]]]]].
    + eexists. split; [left; reflexivity | reflexivity].
    + exists t, row, w'. auto.
  - destruct (createToken_issues oneActiveUser (fun _ => x2a) 1000
                (User.mk 7 "user7" "user7@mail.com" "hash" None None None false))
      as [_ Hout].
    apply Hout. simpl. intros x [<- | []]. simpl. discriminate.
Defined.

(** ** Edge cases of registration and reset request *)

(** X13: [passwordResetRequest] for an address that no user has throws
    [NotFoundException], whatever the mail server would do, and leaves the
    store as it was: no secret is written and no mail is attempted. *)
Theorem passwordResetRequest_unknown_email (w : World) (rnd : nat -> byte)
    (delivered : bool) (email : string) :
  (forall u, In u (users w) -> User.email u <> email) ->
  UserService.passwordResetRequest rnd delivered email w
  = (Throw (NotFoundException "email_not_in_use"), w).
Proof.
  intros Hnone.
  unfold UserService.passwordResetRequest, UserService.findByEmail, User_findOne,
    bind, get_users, ret, throw.
  replace (find _ (users w)) with (@None User.t); [reflexivity|].
  symmetry. apply find_none_iff. intros u Hu.
  apply String.eqb_neq. exact (Hnone u Hu).
Qed.

(** [passwordResetRequest_unknown_email] on the store with one user. *)
Lemma passwordResetRequest_unknown_email_witness :
  UserService.passwordResetRequest (fun _ => x2a) true "nobody@mail.com" oneActiveUser
  = (Throw (NotFoundException "email_not_in_use"), oneActiveUser).
Proof.
  apply (passwordResetRequest_unknown_email oneActiveUser (fun _ => x2a) true
           "nobody@mail.com").
  simpl. intros u [<- | []]. discriminate.
Defined.

Lemma email_in_use_iff (email : string) (w : World) :
  email_in_use email w = true <-> exists u, In u (users w) /\ User.email u = email.
Proof.
  unfold email_in_use. rewrite existsb_exists.
  split; intros [u [Hu E]]; exists u; split; try assumption; apply String.eqb_eq; exact E.
Qed.

Section RegistrationEdge.

Variable bcrypt_hash : string -> string -> string.

(** X14: [save] with an address that a user already has is refused by the
    store; it throws [EmailException] although no mail was attempted, and
    the users, the tokens and the next primary key are what they were. *)
Theorem save_address_in_use (w : World) (salt : string) (rnd : nat -> byte)
    (delivered : bool) (body : UserService.Body) :
  (exists u, In u (users w) /\ User.email u = UserService.body_email body) ->
  fst (UserService.save bcrypt_hash salt rnd delivered body w) = Throw EmailException
  /\ dispatch_outcome
       (effects_since w (snd (UserService.save bcrypt_hash salt rnd delivered body w)))
     = None
  /\ users (snd (UserService.save bcrypt_hash salt rnd delivered body w)) = users w
  /\ tokens (snd (UserService.save bcrypt_hash salt rnd delivered body w)) = tokens w
  /\ nextUserId (snd (UserService.save bcrypt_hash salt rnd delivered body w))
     = nextUserId w.
Proof.
  intros Hused. apply email_in_use_iff in Hused.
  rewrite save_run, Hused. unfold effects_since. cbn [fst snd journal users tokens].
  rewrite skipn_length_app. repeat split.
Qed.

End RegistrationEdge.

(** [save_address_in_use] for a second registration with the address of the
    one user. *)
Lemma save_address_in_use_witness :
  fst (UserService.save sample_hash "salt" (fun _ => x2a) true
         (UserService.mkBody "other" "user1@mail.com" "P4ssword") oneActiveUser)
  = Throw EmailException
  /\ users (snd (UserService.save sample_hash "salt" (fun _ => x2a) true
                   (UserService.mkBody "other" "user1@mail.com" "P4ssword")
                   oneActiveUser))
     = users oneActiveUser.
Proof.
  destruct (save_address_in_use sample_hash oneActiveUser "salt" (fun _ => x2a) true
              (UserService.mkBody "other" "user1@mail.com" "P4ssword"))
    as [E [_ [Hu _]]].
  - exists (User.mk 1 "user1" "user1@mail.com" "hash" None None None false).
    split; [left; reflexivity | reflexivity].
  - split; [exact E | exact Hu].
Defined.

(** ** Keys and addresses stay unique *)

Lemma NoDup_snoc {A : Type} (l : list A) (x : A) :
  NoDup l -> ~ In x l -> NoDup (l ++ [x]).
Proof.
  intros Hl Hx. apply NoDup_app.
  repeat split; try assumption.
  - constructor; [intros [] | constructor].
  - intros a Ha [<- | []]. exact (Hx Ha).
Qed.

Lemma distinct_keys_filter {Row Key : Type} (key : Row -> Key) (keep : Row -> bool)
    (rows : list Row) (Hkeys : NoDup (map key rows)) :
  NoDup (map key (filter keep rows)).
Proof.
  revert Hkeys. induction rows as [|row rows IH]; simpl; intros Hkeys.
  - constructor.
  - inversion Hkeys as [|? ? Hfresh Hrest]; subst.
    destruct (keep row); simpl; [constructor|]; auto.
    intros Hin. apply Hfresh. apply in_map_iff in Hin. destruct Hin as [x [Hx Hin]].
    apply in_map_iff. exists x. split; [exact Hx|]. apply filter_In in Hin. tauto.
Qed.

Lemma NoDup_map_inj {A B : Type} (f : A -> B) (l : list A) (x y : A) :
  NoDup (map f l) -> In x l -> In y l -> f x = f y -> x = y.
Proof.
  induction l as [|a l IH]; simpl; intros H Hx Hy E; [contradiction|].
  inversion H as [|? ? Hnotin Hrest]; subst.
  destruct Hx as [-> | Hx], Hy as [-> | Hy].
  - reflexivity.
  - exfalso. apply Hnotin. rewrite E. apply in_map. exact Hy.
  - exfalso. apply Hnotin. rewrite <- E. apply in_map. exact Hx.
  - apply IH; assumption.
Qed.

(** A save of a row that was read from the table and keeps its key and its
    [g] leaves the keys of the table and the [g]s of the table as they
    were. *)
Lemma map_saved {A B : Type} (key : A -> Z) (g : A -> B) (a u : A) (l : list A) :
  NoDup (map key l) -> In u l -> key a = key u -> g a = g u ->
  map g (map (fun r => if key r =? key a then a else r) l) = map g l.
Proof.
  intros Hkeys Hu Hkey Hg. rewrite map_map. apply map_ext_in. intros r Hr.
  destruct (Z.eqb_spec (key r) (key a)) as [E|E]; [|reflexivity].
  rewrite Hg. f_equal. symmetry.
  apply (NoDup_map_inj key l r u Hkeys Hr Hu). congruence.
Qed.

(** The effect of a [user.save()] on well-keyed stores. *)
Lemma store_wf_saved_user (u u' : User.t) (w w' : World) :
  store_wf w -> In u (users w) ->
  User.id u' = User.id u -> User.email u' = User.email u ->
  users w' = users (saved_user u' w) ->
  nextUserId w' = nextUserId w ->
  NoDup (map Token.id (tokens w')) ->
  (forall r, In r (tokens w') -> Token.id r < nextTokenId w') ->
  incl (tokens w') (tokens w) ->
  store_wf w'.
Proof.
  intros [Hids [Hmails [Hbound [_ [_ Hrefs]]]]] Hu Hid Hmail Husers Hnext Htids Htbound
    Hless.
  unfold store_wf. rewrite Husers, Hnext. cbn [users saved_user].
  split; [|split; [|split; [|split; [|split]]]].
  - rewrite (map_saved User.id User.id u' u); auto.
  - rewrite (map_saved User.id User.email u' u); auto.
  - intros x Hx. apply (in_saved User.id u') in Hx.
    destruct Hx as [[-> _] | [Hx _]]; [rewrite Hid|]; auto.
  - exact Htids.
  - exact Htbound.
  - intros r i Hr Hi. rewrite (map_saved User.id User.id u' u); auto.
    exact (Hrefs r i (Hless r Hr) Hi).
Qed.

(** The effect of a change of the token table alone. *)
Lemma store_wf_tokens (w w' : World) :
  store_wf w -> users w' = users w -> nextUserId w' = nextUserId w ->
  NoDup (map Token.id (tokens w')) ->
  (forall r, In r (tokens w') -> Token.id r < nextTokenId w') ->
  (forall r i, In r (tokens w') -> Token.userId r = Some i ->
     In i (map User.id (users w))) ->
  store_wf w'.
Proof.
  intros [Hids [Hmails [Hbound _]]] Husers Hnext Htids Htbound Hrefs.
  unfold store_wf. rewrite Husers, Hnext. auto 7.
Qed.

Lemma store_wf_token_filter (w : World) (fault : option exn) (cond : Token.t -> bool) :
  store_wf w -> store_wf (snd (Token_destroy fault cond w)).
Proof.
  intros Hw. destruct fault as [e|]; [exact Hw|].
  rewrite Token_destroy_run. cbn [snd].
  pose proof Hw as [_ [_ [_ [Htids [Htbound Hrefs]]]]].
  apply (store_wf_tokens w); cbn [users tokens nextUserId nextTokenId];
    try reflexivity.
  - exact Hw.
  - apply distinct_keys_filter. exact Htids.
  - intros r Hr. apply filter_In in Hr. apply Htbound. tauto.
  - intros r i Hr. apply filter_In in Hr. apply Hrefs. tauto.
Qed.

Section KeysInvariant.

Variable bcrypt_hash : string -> string -> string.

Lemma save_store_wf (salt : string) (rnd : nat -> byte) (delivered : bool)
    (body : UserService.Body) (w : World) :
  store_wf w -> store_wf (snd (UserService.save bcrypt_hash salt rnd delivered body w)).
Proof.
  intros Hw. rewrite save_run.
  destruct (email_in_use _ w) eqn:Hused; [exact Hw|].
  destruct delivered; [|exact Hw].
  destruct Hw as [Hids [Hmails [Hbound [Htids [Htbound Hrefs]]]]].
  unfold store_wf. cbn [snd users tokens nextUserId nextTokenId].
  rewrite !map_app. cbn [map registered User.id User.email].
  split; [|split; [|split; [|split; [|split]]]]; try assumption.
  - apply NoDup_snoc; [exact Hids|]. intros Hin.
    apply in_map_iff in Hin. destruct Hin as [u [E Hu]].
    specialize (Hbound u Hu). lia.
  - apply NoDup_snoc; [exact Hmails|]. intros Hin.
    apply in_map_iff in Hin. destruct Hin as [u [E Hu]].
    assert (Hyes : email_in_use (UserService.body_email body) w = true)
      by (apply email_in_use_iff; exists u; auto).
    congruence.
  - intros u Hu. apply in_app_or in Hu. destruct Hu as [Hu | [<- | []]].
    + specialize (Hbound u Hu). lia.
    + cbn. lia.
  - intros r i Hr Hi. apply in_or_app. left. exact (Hrefs r i Hr Hi).
Qed.

Lemma activate_store_wf (s : string) (w : World) :
  store_wf w -> store_wf (snd (UserService.activate s w)).
Proof.
  intros Hw. unfold UserService.activate, User_findOne, bind, get_users, ret.
  destruct (find _ (users w)) as [u|] eqn:E; [|exact Hw].
  apply find_some in E.
  apply (store_wf_saved_user u (activated u) w); try reflexivity; try tauto;
    try apply incl_refl; apply Hw.
Qed.

Lemma passwordResetRequest_store_wf (rnd : nat -> byte) (delivered : bool)
    (email : string) (w : World) :
  store_wf w -> store_wf (snd (UserService.passwordResetRequest rnd delivered email w)).
Proof.
  intros Hw.
  destruct (find (fun r => String.eqb (User.email r) email) (users w)) as [u|] eqn:E.
  - rewrite (passwordResetRequest_known w rnd delivered email u).
    + apply find_some in E.
      apply (store_wf_saved_user u (with_reset_secret (randomString rnd 16) u) w);
        try reflexivity; try tauto; try apply incl_refl; apply Hw.
    + unfold UserService.findByEmail, User_findOne, bind, get_users, ret.
      rewrite E. reflexivity.
  - unfold UserService.passwordResetRequest, UserService.findByEmail, User_findOne,
      bind, get_users, ret.
    rewrite E. exact Hw.
Qed.

Lemma updatePassword_store_wf (salt s password : string) (w : World) :
  store_wf w ->
  store_wf (snd (UserService.updatePassword bcrypt_hash salt s password w)).
Proof.
  intros Hw.
  unfold UserService.updatePassword, UserService.findByPasswordResetToken,
    User_findOne, bind, get_users, ret.
  destruct (find _ (users w)) as [u|] eqn:E; [|exact Hw].
  apply find_some in E. pose proof Hw as [_ [_ [_ [Htids [Htbound _]]]]].
  apply (store_wf_saved_user u (with_new_password bcrypt_hash salt password u) w);
    try reflexivity; try tauto.
  - cbn. apply distinct_keys_filter. exact Htids.
  - cbn. intros r Hr. apply filter_In in Hr. apply Htbound. tauto.
  - cbn. intros r Hr. apply filter_In in Hr. tauto.
Qed.

Lemma deleteUser_store_wf (id : Z) (w : World) :
  store_wf w -> store_wf (snd (UserService.deleteUser id w)).
Proof.
  intros [Hids [Hmails [Hbound [Htids [Htbound Hrefs]]]]].
  unfold store_wf. cbn.
  split; [|split; [|split; [|split; [|split]]]].
  - apply distinct_keys_filter. exact Hids.
  - apply distinct_keys_filter. exact Hmails.
  - intros u Hu. apply filter_In in Hu. apply Hbound. tauto.
  - apply distinct_keys_filter. exact Htids.
  - intros r Hr. apply filter_In in Hr. apply Htbound. tauto.
  - intros r i Hr Hi. apply filter_In in Hr. destruct Hr as [Hr Hkept].
    specialize (Hrefs r i Hr Hi). apply in_map_iff in Hrefs.
    destruct Hrefs as [u [Hid Hu]]. apply in_map_iff. exists u.
    split; [exact Hid|]. apply filter_In. split; [exact Hu|].
    rewrite Hi in Hkept. cbn [ref_eqb] in Hkept. rewrite Hid. exact Hkept.
Qed.

Lemma updateUser_store_wf (rnd : nat -> byte) (unlinkFault writeFault : option exn)
    (id : Z) (body : UserQueries.Update) (w : World) :
  store_wf w ->
  store_wf (snd (UserQueries.updateUser rnd unlinkFault writeFault id body w)).
Proof.
  intros Hw.
  destruct (updateUser_store w rnd unlinkFault writeFault id body)
    as [Htokens [Hnext [Hnext' Husers]]].
  pose proof Hw as [_ [_ [_ [Htids [Htbound Hrefs]]]]].
  destruct Husers as [Husers | [u [u' [Hu [Hid [Hmail [_ [_ Husers]]]]]]]].
  - apply (store_wf_tokens w); try assumption; rewrite Htokens; try assumption.
    rewrite Hnext'. exact Htbound.
  - apply (store_wf_saved_user u u' w); try assumption; rewrite Htokens;
      try assumption; [rewrite Hnext'; exact Htbound | apply incl_refl].
Qed.

Lemma createToken_store_wf (rnd : nat -> byte) (now : Z) (user : User.t) (w : World) :
  store_wf w -> store_wf (snd (TokenService.createToken rnd now user w)).
Proof.
  intros Hw. pose proof Hw as [_ [_ [_ [Htids [Htbound Hrefs]]]]].
  unfold TokenService.createToken, bind, Token_create, ret.
  destruct (existsb _ (users w)) eqn:Hknown; [|exact Hw].
  apply owner_known in Hknown. destruct Hknown as [x [Hx Hid]].
  apply (store_wf_tokens w); try reflexivity.
  - exact Hw.
  - cbn. rewrite map_app. apply NoDup_snoc; [exact Htids|]. intros Hin.
    apply in_map_iff in Hin. destruct Hin as [r [E Hr]].
    specialize (Htbound r Hr). cbn in E. lia.
  - cbn. intros r Hr. apply in_app_or in Hr. destruct Hr as [Hr | [<- | []]].
    + specialize (Htbound r Hr). lia.
    + cbn. lia.
  - cbn. intros r i Hr Hi. apply in_app_or in Hr. destruct Hr as [Hr | [<- | []]].
    + exact (Hrefs r i Hr Hi).
    + cbn in Hi. injection Hi as <-. apply in_map_iff. exists x. auto.
Qed.

Lemma verify_store_wf (now0 now1 : Z) (s : string) (w : World) :
  store_wf w -> store_wf (snd (TokenService.verify now0 now1 s w)).
Proof.
  intros Hw. unfold TokenService.verify, Token_findOne, bind, get_tokens, ret.
  destruct (find _ (tokens w)) as [r|] eqn:E; [|exact Hw].
  apply find_some in E. pose proof Hw as [_ [_ [_ [Htids [Htbound Hrefs]]]]].
  apply (store_wf_tokens w); try reflexivity.
  - exact Hw.
  - cbn. rewrite (map_saved Token.id Token.id (Token.set_lastUsedAt now1 r) r);
      try reflexivity; tauto.
  - cbn. intros x Hx. apply (in_saved Token.id (Token.set_lastUsedAt now1 r)) in Hx.
    destruct Hx as [[-> _] | [Hx _]]; [apply (Htbound r); tauto | auto].
  - cbn. intros x i Hx. apply (in_saved Token.id (Token.set_lastUsedAt now1 r)) in Hx.
    destruct Hx as [[-> _] | [Hx _]]; [apply (Hrefs r); tauto | apply Hrefs; exact Hx].
Qed.

Lemma exec_store_wf (q : Request) (w : World) :
  store_wf w -> store_wf (exec bcrypt_hash q w).
Proof.
  intros Hw. destruct q; cbn [exec].
  - apply save_store_wf; exact Hw.
  - apply activate_store_wf; exact Hw.
  - apply passwordResetRequest_store_wf; exact Hw.
  - apply updatePassword_store_wf; exact Hw.
  - apply deleteUser_store_wf; exact Hw.
  - apply updateUser_store_wf; exact Hw.
  - apply createToken_store_wf; exact Hw.
  - apply verify_store_wf; exact Hw.
  - apply store_wf_token_filter; exact Hw.
  - apply store_wf_token_filter; exact Hw.
  - apply store_wf_token_filter; exact Hw.
Qed.

(** X15: in every store that the operations of the services ([save],
    [activate], [passwordResetRequest], [updatePassword], [deleteUser],
    [updateUser], [createToken], [verify], [deleteToken], the sweep and
    [clearTokens]) produce from the empty store, no two user rows have the
    same address or the same primary key, no two token rows have the same
    primary key, every primary key is below the next one of its table, and
    the owner of every token row is a row of the user table; each operation
    keeps this, a rolled-back registration, a refused token and a failed
    profile update included. *)
Theorem reachable_store_wf :
  (forall w, Reachable bcrypt_hash w -> store_wf w)
  /\ (forall q w, store_wf w -> store_wf (exec bcrypt_hash q w))
  /\ (forall w u u', Reachable bcrypt_hash w -> In u (users w) -> In u' (users w) ->
        User.email u = User.email u' -> u = u')
  /\ (forall w r i, Reachable bcrypt_hash w -> In r (tokens w) ->
        Token.userId r = Some i -> exists u, In u (users w) /\ User.id u = i).
Proof.
  assert (Hreach : forall w, Reachable bcrypt_hash w -> store_wf w).
  { intros w H. induction H as [|q w H IH].
    - unfold store_wf. cbn. repeat split; try constructor;
        [intros ? [] | intros ? [] | intros ? ? []].
    - apply exec_store_wf. exact IH. }
  split; [exact Hreach|]. split; [apply exec_store_wf|]. split.
  - intros w u u' Hw Hu Hu' E. destruct (Hreach w Hw) as [_ [Hmails _]].
    exact (NoDup_map_inj User.email (users w) u u' Hmails Hu Hu' E).
  - intros w r i Hw Hr Hi. destruct (Hreach w Hw) as [_ [_ [_ [_ [_ Hrefs]]]]].
    specialize (Hrefs r i Hr Hi). apply in_map_iff in Hrefs.
    destruct Hrefs as [u [Hid Hu]]. exists u. auto.
Qed.

End KeysInvariant.

(** [reachable_store_wf] on the store after a registration, a token for the
    new user and a change of the user's name and image. *)
Lemma reachable_store_wf_witness :
  store_wf
    (exec sample_hash
       (ReqUpdateUser (fun _ => x2a) None None 1
          (UserQueries.mkUpdate "grzes" (Some "aGVsbG8=")))
       (exec sample_hash
          (ReqCreateToken (fun _ => x2a) 1000
             (User.mk 1 "user1" "user1@mail.com" "hash" None None None true))
          (exec sample_hash
             (ReqSave "salt" (fun _ => x2a) true
                (UserService.mkBody "user1" "user1@mail.com" "P4ssword"))
             emptyWorld))).
Proof.
  apply (proj1 (reachable_store_wf sample_hash)).
  repeat apply Reachable_exec. apply Reachable_empty.
Defined.

(** ** Profile update *)

(** X16: [updateUser] writes nothing when it throws, and it throws the
    [TypeError] of the write to the [null] lookup result when no row has the
    id.  When it returns, every row of the user table has the id, address,
    password hash, secrets and activation state of a row that was there
    before (only [username] and [image] can differ), no token row is touched,
    and the answer carries the id and the new name; with an image in the
    request the stored file name is a fresh random string. *)
Theorem updateUser_keeps_credentials (w : World) (rnd : nat -> byte)
    (unlinkFault writeFault : option exn) (id : Z) (body : UserQueries.Update) :
  tokens (snd (UserQueries.updateUser rnd unlinkFault writeFault id body w)) = tokens w
  /\ (forall x,
        In x (users (snd (UserQueries.updateUser rnd unlinkFault writeFault id body w))) ->
        exists u, In u (users w)
                  /\ User.id x = User.id u /\ User.email x = User.email u
                  /\ User.password x = User.password u
                  /\ User.activationToken x = User.activationToken u
                  /\ User.passwordResetToken x = User.passwordResetToken u
                  /\ User.inactive x = User.inactive u)
  /\ (forall e,
        fst (UserQueries.updateUser rnd unlinkFault writeFault id body w) = Throw e ->
        snd (UserQueries.updateUser rnd unlinkFault writeFault id body w) = w)
  /\ ((forall u, In u (users w) -> User.id u <> id) ->
      fst (UserQueries.updateUser rnd unlinkFault writeFault id body w) = Throw TypeError)
  /\ (forall v,
        fst (UserQueries.updateUser rnd unlinkFault writeFault id body w) = Ok v ->
        view_id v = id /\ view_username v = UserQueries.update_username body
        /\ (truthy (UserQueries.update_image body) = true ->
            view_image v = Some (randomString rnd 32))
        /\ exists x,
             In x (users (snd (UserQueries.updateUser rnd unlinkFault writeFault id
                                 body w)))
             /\ User.id x = id /\ attributes x = v).
Proof.
  assert (Hsame : forall x, In x (users w) ->
            exists u, In u (users w)
                      /\ User.id x = User.id u /\ User.email x = User.email u
                      /\ User.password x = User.password u
                      /\ User.activationToken x = User.activationToken u
                      /\ User.passwordResetToken x = User.passwordResetToken u
                      /\ User.inactive x = User.inactive u).
  { intros x Hx. exists x. repeat split; auto. }
  unfold UserQueries.updateUser, UserQueries.saveProfileImage,
    UserQueries.deleteProfileImage, User_findOne, bind, get_users, ret, throw.
  remember (randomString rnd 32) as fileName eqn:Hname. clear Hname.
  destruct (find (fun r => User.id r =? id) (users w)) as [u|] eqn:E.
  - apply find_some in E. destruct E as [Hu Hid]. apply Z.eqb_eq in Hid.
    subst id.
    assert (Hsaved : forall u' x,
              User.id u' = User.id u -> User.email u' = User.email u ->
              User.password u' = User.password u ->
              User.activationToken u' = User.activationToken u ->
              User.passwordResetToken u' = User.passwordResetToken u ->
              User.inactive u' = User.inactive u ->
              In x (map (fun r => if User.id r =? User.id u' then u' else r) (users w)) ->
              exists u0, In u0 (users w)
                      /\ User.id x = User.id u0 /\ User.email x = User.email u0
                      /\ User.password x = User.password u0
                      /\ User.activationToken x = User.activationToken u0
                      /\ User.passwordResetToken x = User.passwordResetToken u0
                      /\ User.inactive x = User.inactive u0).
    { intros u' x H1 H2 H3 H4 H5 H6 Hx. apply (in_saved User.id u') in Hx.
      destruct Hx as [[-> _] | [Hx _]];
        [exists u; repeat split; assumption | exact (Hsame x Hx)]. }
    assert (Hthere : forall u', User.id u' = User.id u ->
              In u' (map (fun r => if User.id r =? User.id u' then u' else r) (users w))).
    { intros u' H1. apply (in_saved User.id u'). left. split; [reflexivity|].
      exists u. auto. }
    destruct (UserQueries.update_image body) as [img|] eqn:Himg;
      [destruct (truthy (Some img)) eqn:T;
       [destruct (truthy (User.image (UserQueries.set_username
                                        (UserQueries.update_username body) u))) eqn:T2;
        [destruct unlinkFault as [e1|]|]; destruct writeFault as [e2|]|]|];
      cbn;
      (split; [reflexivity|]);
      (split;
       [first [exact Hsame
              | intros x Hx;
                match type of Hx with
                | In _ (map (fun r => if _ then ?u' else r) _) =>
                    apply (Hsaved u' x); [reflexivity.. | exact Hx]
                end]|]);
      (split; [intros e He; first [reflexivity | discriminate He]|]);
      (split; [intros Hnone; exfalso; exact (Hnone u Hu eq_refl)|]);
      intros v Hv; try discriminate Hv; injection Hv as <-; cbn;
      (split; [reflexivity|]); (split; [reflexivity|]);
      (split; [intros Ht; first [reflexivity | discriminate Ht]|]);
      match goal with
      | |- exists x, In x (map (fun r => if _ then ?u' else r) _) /\ _ =>
          exists u'; split; [exact (Hthere u' eq_refl)|]
      end;
      (split; reflexivity).
  - cbn. split; [reflexivity|]. split; [exact Hsame|]. split; [reflexivity|].
    split; [reflexivity|]. intros v Hv. discriminate Hv.
Qed.

(** [updateUser_keeps_credentials] for a change of name and image of user 2:
    the password hash and the activation state stay. *)
Lemma updateUser_keeps_credentials_witness :
  fst (UserQueries.updateUser (fun _ => x2a) None None 7
         (UserQueries.mkUpdate "grzes" None) resetPending) = Throw TypeError
  /\ tokens (snd (UserQueries.updateUser (fun _ => x2a) None None 2
                    (UserQueries.mkUpdate "grzes" (Some "aGVsbG8=")) resetPending))
     = tokens resetPending.
Proof.
  split.
  - apply (updateUser_keeps_credentials resetPending (fun _ => x2a) None None 7
             (UserQueries.mkUpdate "grzes" None)).
    simpl. intros u [<- | [<- | []]]; discriminate.
  - apply (updateUser_keeps_credentials resetPending (fun _ => x2a) None None 2
             (UserQueries.mkUpdate "grzes" (Some "aGVsbG8="))).
Defined.

(** ** The validator of the password update *)

(** X17: [passwordResetTokenValidator] never writes to the store.  For a
    secret that a user holds it calls [next] once, without an error.  For a
    secret that nobody holds it hands [ForbiddenException] with the message
    [unauthorized_password_reset] to [next] and then calls [next] once more
    without an error, so the rest of the chain still runs. *)
Theorem passwordResetTokenValidator_calls (w : World) (s : string) :
  snd (passwordResetTokenValidator s w) = w
  /\ ((forall u, In u (users w) -> ~ holds_reset s u) ->
      fst (passwordResetTokenValidator s w)
      = Ok [Some (ForbiddenException (Some "unauthorized_password_reset")); None])
  /\ (forall u, In u (users w) -> holds_reset s u ->
      fst (passwordResetTokenValidator s w) = Ok [None]).
Proof.
  unfold passwordResetTokenValidator, UserService.findByPasswordResetToken,
    User_findOne, bind, get_users, ret.
  split; [reflexivity|]. split.
  - intros Hnone.
    replace (find _ (users w)) with (@None User.t); [reflexivity|].
    symmetry. apply find_none_iff. intros u Hu.
    destruct (col_eqb _ s) eqn:E; [|reflexivity].
    apply reset_cond in E. exfalso. exact (Hnone u Hu E).
  - intros u Hu Hs.
    destruct (find_finds (fun r => col_eqb (User.passwordResetToken r) s) (users w) u Hu)
      as [x [Hfind _]].
    + apply reset_cond. exact Hs.
    + rewrite Hfind. reflexivity.
Qed.

(** [passwordResetTokenValidator_calls] for an unknown and for the pending
    secret. *)
Lemma passwordResetTokenValidator_calls_witness :
  fst (passwordResetTokenValidator "abcd" resetPending)
  = Ok [Some (ForbiddenException (Some "unauthorized_password_reset")); None]
  /\ fst (passwordResetTokenValidator "0011223344556677" resetPending) = Ok [None].
Proof.
  split.
  - apply (proj1 (proj2 (passwordResetTokenValidator_calls resetPending "abcd"))).
    simpl. intros u [<- | [<- | []]]; discriminate.
  - apply (proj2 (proj2 (passwordResetTokenValidator_calls resetPending
                           "0011223344556677"))
             (User.mk 1 "user1" "user1@mail.com" "hash" (Some "a1b2c3d4e5f60718")
                      (Some "0011223344556677") None true)).
    + left. reflexivity.
    + reflexivity.
Defined.

(** ** Login and logout *)

Section Login.

Variable isEmail : string -> bool.
Variable bcrypt_compare : string -> string -> bool.

(** The runs of the login handler. *)
Lemma postAuth_run (w : World) (rnd : nat -> byte) (now : Z)
    (body : AuthRouter.Credentials) :
  AuthRouter.postAuth isEmail bcrypt_compare rnd now body w
  = match AuthRouter.cred_email body with
    | None => (Ok (Next AuthException), w)
    | Some email =>
        if negb (isEmail email) then (Ok (Next AuthException), w)
        else
          match find (fun r => String.eqb (User.email r) email) (users w) with
          | None => (Ok (Next AuthException), w)
          | Some user =>
              match AuthRouter.cred_password body with
              | None => (Throw (JsError "data and hash arguments required"), w)
              | Some password =>
                  if negb (bcrypt_compare password (User.password user))
                  then (Ok (Next AuthException), w)
                  else if User.inactive user
                  then (Ok (Next (ForbiddenException None)), w)
                  else (Ok (Send (AuthRouter.mkSession (User.id user) (User.username user)
                                    (randomString rnd 32) (User.image user))),
                        mkWorld (users w)
                                (tokens w
                                 ++ [Token.mk (nextTokenId w) (Some (randomString rnd 32))
                                              (Some (User.id user)) now])
                                (nextUserId w) (nextTokenId w + 1)
                                (journal w
                                 ++ [ETokenCreate
                                       (Token.mk (nextTokenId w)
                                                 (Some (randomString rnd 32))
                                                 (Some (User.id user)) now)]))
              end
          end
    end.
Proof.
  unfold AuthRouter.postAuth, UserService.findByEmail, User_findOne, bind, get_users,
    ret, throw.
  destruct (AuthRouter.cred_email body) as [email|]; [|reflexivity].
  destruct (negb (isEmail email)); [reflexivity|].
  destruct (find _ (users w)) as [user|] eqn:Hfind; [|reflexivity].
  destruct (AuthRouter.cred_password body) as [password|]; [|reflexivity].
  destruct (negb (bcrypt_compare _ _)); [reflexivity|].
  destruct (User.inactive user); [reflexivity|].
  apply find_some in Hfind. destruct Hfind as [Hin _].
  rewrite createToken_run by (exists user; auto). reflexivity.
Qed.


(** X19: the token of a session that the login handler sent verifies to the
    id of that session, when the random string was not in the token table
    and the verification comes less than [TTL] after the login. *)
Theorem login_then_verify (w : World) (rnd : nat -> byte) (now now0 now1 : Z)
    (body : AuthRouter.Credentials) (session : AuthRouter.Session) :
  fst (AuthRouter.postAuth isEmail bcrypt_compare rnd now body w) = Ok (Send session) ->
  (forall r, In r (tokens w) -> ~ carries (randomString rnd 32) r) ->
  now0 - now < TTL ->
  fst (TokenService.verify now0 now1 (AuthRouter.session_token session)
         (snd (AuthRouter.postAuth isEmail bcrypt_compare rnd now body w)))
  = Ok (TokenService.mkAuthenticatedUser (Some (AuthRouter.session_id session))).
Proof.
  rewrite postAuth_run.
  destruct (AuthRouter.cred_email body) as [email|]; [|intros H; discriminate H].
  destruct (negb (isEmail _)); [intros H; discriminate H|].
  destruct (find _ (users w)) as [user|]; [|intros H; discriminate H].
  destruct (AuthRouter.cred_password body) as [password|]; [|intros H; discriminate H].
  destruct (negb (bcrypt_compare _ _)); [intros H; discriminate H|].
  destruct (User.inactive user); [intros H; discriminate H|].
  cbn [fst snd]. intros H Hnew Hsoon. injection H as <-.
  cbn [AuthRouter.session_token AuthRouter.session_id].
  set (row := Token.mk (nextTokenId w) (Some (randomString rnd 32))
                       (Some (User.id user)) now).
  rewrite (verify_hit _ (randomString rnd 32) now0 now1 row).
  - reflexivity.
  - cbn [tokens]. apply in_or_app. right. left. reflexivity.
  - reflexivity.
  - cbn [tokens]. intros r' Hin Hc. apply in_app_or in Hin.
    destruct Hin as [Hin | [<- | []]]; [exfalso; exact (Hnew r' Hin Hc) | reflexivity].
  - exact Hsoon.
Qed.

End Login.


(** [login_then_verify] for the login of the one active user. *)
Lemma login_then_verify_witness :
  fst (TokenService.verify 2000 2001 "2a2a2a2a2a2a2a2a2a2a2a2a2a2a2a2a"
         (snd (AuthRouter.postAuth (fun _ => true) (fun p h => String.eqb p h)
                 (fun _ => x2a) 1000
                 (AuthRouter.mkCredentials (Some "user1@mail.com") (Some "hash")) oneActiveUser)))
  = Ok (TokenService.mkAuthenticatedUser (Some 1)).
Proof.
  apply (login_then_verify (fun _ => true) (fun p h => String.eqb p h) oneActiveUser
           (fun _ => x2a) 1000 2000 2001
           (AuthRouter.mkCredentials (Some "user1@mail.com") (Some "hash"))
           (AuthRouter.mkSession 1 "user1" "2a2a2a2a2a2a2a2a2a2a2a2a2a2a2a2a" None)).
  - reflexivity.
  - simpl. intros r [].
  - unfold TTL. lia.
Defined.

Lemma substring_whole (s : string) : substring 0 (String.length s) s = s.
Proof. induction s as [|c s IH]; simpl; [reflexivity | rewrite IH; reflexivity]. Qed.

(** The header without its first seven characters, whatever they are. *)
Lemma bearer_drops_scheme (scheme t : string) :
  String.length scheme = 7%nat -> AuthRouter.bearer (scheme ++ t)%string = t.
Proof.
  intros Hlen. unfold AuthRouter.bearer.
  do 7 (destruct scheme as [|? scheme]; [discriminate Hlen|]).
  destruct scheme; [|discriminate Hlen].
  cbn [append String.length Nat.sub substring]. rewrite Nat.sub_0_r.
  apply substring_whole.
Qed.

(** X20: the logout handler returns for every request.  Without a header, or
    with an empty one, it writes nothing.  With a header it takes what
    follows the first seven characters, whatever these are, as the token and
    deletes the rows that carry it: afterwards [verify] on that token throws,
    and the users and the rows of the other tokens are as they were. *)
Theorem postLogout_spec (w : World) :
  AuthRouter.postLogout None w = (Ok tt, w)
  /\ AuthRouter.postLogout (Some "") w = (Ok tt, w)
  /\ (forall scheme t,
        String.length scheme = 7%nat ->
        exists w',
          AuthRouter.postLogout (Some (scheme ++ t)%string) w = (Ok tt, w')
          /\ users w' = users w
          /\ (forall r, In r (tokens w') <-> In r (tokens w) /\ ~ carries t r)
          /\ (forall now0 now1,
                TokenService.verify now0 now1 t w' = (Throw TypeError, w'))).
Proof.
  split; [reflexivity|]. split; [reflexivity|].
  intros scheme t Hlen. unfold AuthRouter.postLogout.
  assert (Htruthy : truthy (Some (scheme ++ t)%string) = true).
  { destruct scheme; [discriminate Hlen | reflexivity]. }
  rewrite Htruthy, (bearer_drops_scheme scheme t Hlen).
  unfold TokenService.deleteToken. rewrite Token_destroy_run.
  eexists. split; [reflexivity|]. cbn [users tokens].
  assert (Hrows : forall r,
            In r (filter (fun r => negb (col_eqb (Token.token r) t)) (tokens w))
            <-> In r (tokens w) /\ ~ carries t r).
  { intros r. rewrite filter_In, negb_true_iff. unfold carries.
    rewrite <- col_eqb_true. destruct (col_eqb _ t); intuition congruence. }
  split; [reflexivity|]. split; [exact Hrows|].
  intros now0 now1. apply verify_miss. cbn [tokens]. intros r Hr Hc.
  apply Hrows in Hr. tauto.
Qed.

(** [postLogout_spec] for the header of the first session of the store. *)
Lemma postLogout_spec_witness :
  exists w',
    AuthRouter.postLogout (Some "Bearer t1") resetPending = (Ok tt, w')
    /\ TokenService.verify 1000 1001 "t1" w' = (Throw TypeError, w').
Proof.
  destruct (proj2 (proj2 (postLogout_spec resetPending)) "Bearer " "t1" eq_refl)
    as [w' [E [_ [_ Hv]]]].
  exists w'. split; [exact E | apply Hv].
Defined.

(** ** From registration to the first session *)

Lemma find_app_last {A : Type} (p : A -> bool) (l : list A) (a : A) :
  (forall x, In x l -> p x = false) -> p a = true -> find p (l ++ [a]) = Some a.
Proof.
  intros Hl Ha. induction l as [|x l IH]; simpl.
  - rewrite Ha. reflexivity.
  - rewrite (Hl x (or_introl eq_refl)). apply IH.
    intros y Hy. apply Hl. right. exact Hy.
Qed.

Lemma findByEmail_find (w : World) (email : string) (o : option User.t) :
  UserService.findByEmail email w = (Ok o, w) ->
  find (fun r => String.eqb (User.email r) email) (users w) = o.
Proof.
  unfold UserService.findByEmail, User_findOne, bind, get_users, ret.
  intros H. injection H as H. exact H.
Qed.

Section Flows.

Variable bcrypt_hash : string -> string -> string.
Variable isEmail : string -> bool.
Variable bcrypt_compare : string -> string -> bool.

(** X21: a registered user cannot log in before the activation and can log
    in after it.  For a registration with a free, well-formed address whose
    mail is delivered, and an activation secret that no other user holds: the
    login with the registered password is answered with [ForbiddenException]
    and issues no token; [activate] with the secret of the mail returns; and
    the same login then sends a session with the id and the name of the new
    user. *)
Theorem register_activate_login (w : World) (salt : string) (rnd rnd' : nat -> byte)
    (now : Z) (body : UserService.Body) :
  (forall u, In u (users w) -> User.email u <> UserService.body_email body) ->
  (forall u, In u (users w) -> ~ holds_activation (randomString rnd 16) u) ->
  isEmail (UserService.body_email body) = true ->
  bcrypt_compare (UserService.body_password body)
                 (bcrypt_hash salt (UserService.body_password body)) = true ->
  exists w1 w2 session,
    UserService.save bcrypt_hash salt rnd true body w = (Ok tt, w1)
    /\ AuthRouter.postAuth isEmail bcrypt_compare rnd' now
         (AuthRouter.mkCredentials (Some (UserService.body_email body))
                                   (Some (UserService.body_password body))) w1
       = (Ok (Next (ForbiddenException None)), w1)
    /\ UserService.activate (randomString rnd 16) w1 = (Ok tt, w2)
    /\ fst (AuthRouter.postAuth isEmail bcrypt_compare rnd' now
              (AuthRouter.mkCredentials (Some (UserService.body_email body))
                                        (Some (UserService.body_password body))) w2)
       = Ok (Send session)
    /\ AuthRouter.session_id session = nextUserId w
    /\ AuthRouter.session_username session = UserService.body_username body.
Proof.
  intros Hfree Hnew Hmail Hmatch.
  set (reg := registered bcrypt_hash salt rnd body w).
  assert (Hunused : email_in_use (UserService.body_email body) w = false).
  { destruct (email_in_use _ w) eqn:E; [|reflexivity].
    apply email_in_use_iff in E. destruct E as [u [Hu E]].
    exfalso. exact (Hfree u Hu E). }
  pose proof (save_run bcrypt_hash salt rnd true body w) as Hsave.
  rewrite Hunused in Hsave. fold reg in Hsave.
  match type of Hsave with _ = (_, ?x) => set (w1 := x) in * end.
  assert (Hknown1 : UserService.findByEmail (UserService.body_email body) w1
                    = (Ok (Some reg), w1)).
  { assert (Hfind : find (fun r => String.eqb (User.email r)
                                                 (UserService.body_email body))
                           (users w ++ [reg]) = Some reg).
    { apply find_app_last.
      - intros x Hx. apply String.eqb_neq. exact (Hfree x Hx).
      - apply String.eqb_refl. }
    exact (f_equal (fun o => (Ok o, w1)) Hfind). }
  assert (Hin1 : In reg (users w1)).
  { change (users w1) with (users w ++ [reg]).
    apply in_or_app. right. left. reflexivity. }
  assert (Hone : forall u', In u' (users w1) ->
                            holds_activation (randomString rnd 16) u' -> u' = reg).
  { change (users w1) with (users w ++ [reg]).
    intros u' Hu' Hholds. apply in_app_or in Hu'.
    destruct Hu' as [Hu' | [<- | []]]; [exfalso; exact (Hnew u' Hu' Hholds) | reflexivity]. }
  pose proof (activate_hit w1 (randomString rnd 16) reg Hin1 eq_refl Hone) as Hact.
  set (w2 := saved_user (activated reg) w1) in *.
  assert (Hknown2 : UserService.findByEmail (UserService.body_email body) w2
                    = (Ok (Some (activated reg)), w2)).
  { apply (findByEmail_saved w1 w2 _ reg); auto. }
  exists w1, w2.
  exists (AuthRouter.mkSession (nextUserId w) (UserService.body_username body)
            (randomString rnd' 32) None).
  split; [exact Hsave|]. split; [|split; [exact Hact|]].
  - rewrite postAuth_run. cbn [AuthRouter.cred_email AuthRouter.cred_password].
    rewrite Hmail, (findByEmail_find _ _ _ Hknown1). cbn [negb].
    change (User.password reg) with (bcrypt_hash salt (UserService.body_password body)).
    rewrite Hmatch. reflexivity.
  - rewrite postAuth_run. cbn [AuthRouter.cred_email AuthRouter.cred_password].
    rewrite Hmail, (findByEmail_find _ _ _ Hknown2). cbn [negb].
    change (User.password (activated reg))
      with (bcrypt_hash salt (UserService.body_password body)).
    rewrite Hmatch. cbn [negb]. repeat split.
Qed.

(** X22: a reset secret can be used once.  After [updatePassword] with the
    secret that one user holds, no row holds the secret: a second
    [updatePassword] with it throws and writes nothing, and the validator of
    the route reports it as unknown. *)
Theorem reset_secret_single_use (w : World) (salt s password : string) (u : User.t) :
  In u (users w) -> holds_reset s u ->
  (forall u', In u' (users w) -> holds_reset s u' -> u' = u) ->
  exists w',
    UserService.updatePassword bcrypt_hash salt s password w = (Ok tt, w')
    /\ (forall x, In x (users w') -> ~ holds_reset s x)
    /\ (forall salt' password',
          UserService.updatePassword bcrypt_hash salt' s password' w'
          = (Throw TypeError, w'))
    /\ fst (passwordResetTokenValidator s w')
       = Ok [Some (ForbiddenException (Some "unauthorized_password_reset")); None].
Proof.
  intros Hin Hs Huniq.
  exists (password_updated bcrypt_hash salt password u w).
  split; [apply updatePassword_hit; assumption|].
  assert (Hgone : forall x, In x (users (password_updated bcrypt_hash salt password u w)) ->
                            ~ holds_reset s x).
  { intros x Hx Hholds.
    apply (in_saved User.id (with_new_password bcrypt_hash salt password u)) in Hx.
    destruct Hx as [[-> _] | [Hx Hne]].
    - discriminate Hholds.
    - apply Hne. rewrite (Huniq x Hx Hholds). reflexivity. }
  split; [exact Hgone|]. split.
  - intros salt' password'. apply updatePassword_miss. exact Hgone.
  - unfold passwordResetTokenValidator, bind.
    rewrite (findByPasswordResetToken_none _ s Hgone). reflexivity.
Qed.

(** X23: the reset flow gives the account back.  For a known, well-formed
    address and a new secret that no other user holds: after
    [passwordResetRequest] (whether or not its mail is delivered) and
    [updatePassword] with the secret and a new password, the login with the
    new password sends a session of that user, also when the user was
    inactive before, and no token row of the user from before the reset is
    left. *)
Theorem reset_then_login (w : World) (rnd rnd' : nat -> byte) (delivered : bool)
    (email salt password : string) (now : Z) (u : User.t) :
  UserService.findByEmail email w = (Ok (Some u), w) ->
  (forall x, In x (users w) -> User.id x <> User.id u ->
             ~ holds_reset (randomString rnd 16) x) ->
  isEmail email = true ->
  bcrypt_compare password (bcrypt_hash salt password) = true ->
  exists w1 w2 session,
    snd (UserService.passwordResetRequest rnd delivered email w) = w1
    /\ UserService.updatePassword bcrypt_hash salt (randomString rnd 16) password w1
       = (Ok tt, w2)
    /\ (forall r, In r (tokens w2) -> Token.userId r <> Some (User.id u))
    /\ fst (AuthRouter.postAuth isEmail bcrypt_compare rnd' now
              (AuthRouter.mkCredentials (Some email) (Some password)) w2)
       = Ok (Send session)
    /\ AuthRouter.session_id session = User.id u.
Proof.
  intros Hknown Hothers Hmail Hmatch.
  set (s := randomString rnd 16) in *.
  set (u1 := with_reset_secret s u).
  rewrite (passwordResetRequest_known w rnd delivered email u Hknown).
  cbn [snd]. fold s u1.
  match goal with |- exists _ _ _, ?x = _ /\ _ => set (w1 := x) end.
  assert (Hknown1 : UserService.findByEmail email w1 = (Ok (Some u1), w1)).
  { apply (findByEmail_saved w w1 email u u1); auto. }
  assert (Hin1 : In u1 (users w1)).
  { pose proof (findByEmail_find _ _ _ Hknown1) as Hfind.
    apply find_some in Hfind. tauto. }
  assert (Hone : forall x, In x (users w1) -> holds_reset s x -> x = u1).
  { intros x Hx Hholds. apply (in_saved User.id u1) in Hx.
    destruct Hx as [[-> _] | [Hx Hne]]; [reflexivity|].
    exfalso. exact (Hothers x Hx Hne Hholds). }
  pose proof (updatePassword_hit bcrypt_hash w1 salt s password u1 Hin1 eq_refl Hone)
    as Hupd.
  set (u2 := with_new_password bcrypt_hash salt password u1).
  set (w2 := password_updated bcrypt_hash salt password u1 w1) in *.
  assert (Hknown2 : UserService.findByEmail email w2 = (Ok (Some u2), w2)).
  { apply (findByEmail_saved w1 w2 email u1 u2); auto. }
  exists w1, w2.
  exists (AuthRouter.mkSession (User.id u) (User.username u) (randomString rnd' 32)
                               (User.image u)).
  split; [reflexivity|]. split; [exact Hupd|]. split; [|split; [|reflexivity]].
  - intros r Hr. cbn [tokens w2 password_updated] in Hr.
    apply filter_In in Hr. destruct Hr as [_ Hr]. apply negb_true_iff in Hr.
    intros E. apply ref_eqb_true in E. cbn [User.id u1 with_reset_secret] in Hr.
    congruence.
  - rewrite postAuth_run. cbn [AuthRouter.cred_email AuthRouter.cred_password].
    rewrite Hmail, (findByEmail_find _ _ _ Hknown2). cbn [negb].
    change (User.password u2) with (bcrypt_hash salt password).
    rewrite Hmatch. reflexivity.
Qed.

End Flows.

(** [register_activate_login] for the first registration into the empty
    store. *)
Lemma register_activate_login_witness :
  exists w1 w2 session,
    UserService.save sample_hash "salt" (fun _ => x2a) true
      (UserService.mkBody "user1" "user1@mail.com" "P4ssword") emptyWorld = (Ok tt, w1)
    /\ AuthRouter.postAuth (fun _ => true)
         (fun p h => String.eqb (sample_hash "salt" p) h) (fun _ => x2b) 1000
         (AuthRouter.mkCredentials (Some "user1@mail.com") (Some "P4ssword")) w1
       = (Ok (Next (ForbiddenException None)), w1)
    /\ UserService.activate "2a2a2a2a2a2a2a2a" w1 = (Ok tt, w2)
    /\ fst (AuthRouter.postAuth (fun _ => true)
              (fun p h => String.eqb (sample_hash "salt" p) h) (fun _ => x2b) 1000
              (AuthRouter.mkCredentials (Some "user1@mail.com") (Some "P4ssword")) w2)
       = Ok (Send session)
    /\ AuthRouter.session_id session = 1
    /\ AuthRouter.session_username session = "user1".
Proof.
  apply (register_activate_login sample_hash (fun _ => true)
           (fun p h => String.eqb (sample_hash "salt" p) h)
           emptyWorld "salt" (fun _ => x2a) (fun _ => x2b) 1000
           (UserService.mkBody "user1" "user1@mail.com" "P4ssword")).
  - simpl. intros u [].
  - simpl. intros u [].
  - reflexivity.
  - reflexivity.
Defined.

(** [reset_secret_single_use] for the pending reset of the store. *)
Lemma reset_secret_single_use_witness :
  exists w',
    UserService.updatePassword sample_hash "salt" "0011223344556677" "N3wPassword"
      resetPending = (Ok tt, w')
    /\ UserService.updatePassword sample_hash "salt" "0011223344556677" "0therPassword" w'
       = (Throw TypeError, w').
Proof.
  destruct (reset_secret_single_use sample_hash resetPending "salt" "0011223344556677"
              "N3wPassword"
              (User.mk 1 "user1" "user1@mail.com" "hash" (Some "a1b2c3d4e5f60718")
                       (Some "0011223344556677") None true))
    as [w' [E [_ [Hagain _]]]].
  - simpl. left. reflexivity.
  - reflexivity.
  - simpl. intros x [<- | [<- | []]] Hx; [reflexivity | discriminate Hx].
  - exists w'. split; [exact E | apply Hagain].
Defined.

(** [reset_then_login] for the one user of the store, with a refused mail. *)
Lemma reset_then_login_witness :
  exists w1 w2 session,
    snd (UserService.passwordResetRequest (fun _ => x2a) false "user1@mail.com"
           oneActiveUser) = w1
    /\ UserService.updatePassword sample_hash "salt" "2a2a2a2a2a2a2a2a" "N3wPassword" w1
       = (Ok tt, w2)
    /\ (forall r, In r (tokens w2) -> Token.userId r <> Some 1)
    /\ fst (AuthRouter.postAuth (fun _ => true)
              (fun p h => String.eqb (sample_hash "salt" p) h) (fun _ => x2b) 1000
              (AuthRouter.mkCredentials (Some "user1@mail.com") (Some "N3wPassword")) w2)
       = Ok (Send session)
    /\ AuthRouter.session_id session = 1.
Proof.
  apply (reset_then_login sample_hash (fun _ => true)
           (fun p h => String.eqb (sample_hash "salt" p) h)
           oneActiveUser (fun _ => x2a) (fun _ => x2b) false
           "user1@mail.com" "salt" "N3wPassword" 1000
           (User.mk 1 "user1" "user1@mail.com" "hash" None None None false)).
  - reflexivity.
  - simpl. intros x [<- | []] Hne. exfalso. apply Hne. reflexivity.
  - reflexivity.
  - reflexivity.
Defined.
